(** * tor-socks: the SOCKS5 front end of [src/tor.py]

    A shallow embedding of the two classes of [src/tor.py] that serve one
    client connection ([Socks5] and [SocksProxy], with the library calls
    they make), followed by the properties of the handshake and of the relay
    that the specification states.

    Python objects are modelled as follows.
    - [bytes] is [list byte]; an [int] is an [N]; a [str] is the list of its
      Unicode code points ([pystr]).
    - A socket is a record holding what the peer still has to say ([rx],
      then [rx_end]) and what will happen to the next calls of [send]
      ([tx_faults]).  Everything the program does to the outside is appended
      to one global [trace].
    - Python code is a function [world -> outcome * world]: it returns a
      value, raises an exception, or blocks for ever ([Hang]). *)

From Stdlib Require Import List NArith Bool Arith String Ascii Lia.
From Stdlib Require Import Init.Byte DecimalString.
From Stdlib Require Strings.Byte.
Import ListNotations.

Set Implicit Arguments.

(** ** Values *)

(** A Python [str]: its code points. *)
Definition pystr := list N.

Fixpoint str_of_string (s : string) : pystr :=
  match s with
  | EmptyString => []
  | String a s' => N_of_ascii a :: str_of_string s'
  end.

(** [str(i)] for a non-negative [int]: its decimal digits. *)
Definition py_str (i : N) : pystr :=
  str_of_string (NilEmpty.string_of_uint (N.to_uint i)).

(** [sep.join(xs)] *)
Fixpoint join (sep : pystr) (xs : list pystr) : pystr :=
  match xs with
  | [] => []
  | [x] => x
  | x :: xs' => x ++ sep ++ join sep xs'
  end.

(** [list(buf)], also the iteration over a [bytes] object: its items as
    [int]s. *)
Definition ints (buf : list byte) : list N := map Byte.to_N buf.

Definition byte_of_N (n : N) : byte :=
  match Byte.of_N n with
  | Some b => b
  | None => x00
  end.

(** [a == b] on [bytes] *)
Fixpoint bytes_eqb (a b : list byte) : bool :=
  match a, b with
  | [], [] => true
  | x :: a', y :: b' => Byte.eqb x y && bytes_eqb a' b'
  | _, _ => false
  end.

(** [bytes.hex()]: two lower-case digits per byte. *)
Definition hex_digit (d : N) : N :=
  if (d <? 10)%N then (48 + d)%N else (87 + d)%N.

Definition hex (buf : list byte) : pystr :=
  flat_map (fun b => [hex_digit (Byte.to_N b / 16); hex_digit (Byte.to_N b mod 16)]) buf.

(** The value of one digit in base 16, for [int(s, 16)]. *)
Definition digit16 (c : N) : option N :=
  if ((48 <=? c) && (c <=? 57))%N then Some (c - 48)%N
  else if ((97 <=? c) && (c <=? 102))%N then Some (c - 87)%N
  else if ((65 <=? c) && (c <=? 70))%N then Some (c - 55)%N
  else None.

Fixpoint int16_digits (acc : N) (s : pystr) : option N :=
  match s with
  | [] => Some acc
  | c :: s' =>
      match digit16 c with
      | Some d => int16_digits (16 * acc + d) s'
      | None => None
      end
  end.

(** [int(s, 16)] on a string of digits; the empty string is refused
    ([None] stands for [ValueError]). *)
Definition int16 (s : pystr) : option N :=
  match s with
  | [] => None
  | _ => int16_digits 0 s
  end.

(** [bytes.decode()]: strict UTF-8.  [None] stands for
    [UnicodeDecodeError]. *)
Definition in_range (lo hi : N) (b : byte) : bool :=
  ((lo <=? Byte.to_N b) && (Byte.to_N b <=? hi))%N.

Definition is_cont (b : byte) : bool := in_range 128 191 b.

Definition cont_bits (b : byte) : N := (Byte.to_N b - 128)%N.

Definition second_of_3 (n0 : N) (b1 : byte) : bool :=
  if (n0 =? 224)%N then in_range 160 191 b1
  else if (n0 =? 237)%N then in_range 128 159 b1
  else is_cont b1.

Definition second_of_4 (n0 : N) (b1 : byte) : bool :=
  if (n0 =? 240)%N then in_range 144 191 b1
  else if (n0 =? 244)%N then in_range 128 143 b1
  else is_cont b1.

Fixpoint utf8_decode (buf : list byte) : option pystr :=
  match buf with
  | [] => Some []
  | b0 :: t0 =>
      let n0 := Byte.to_N b0 in
      if (n0 <? 128)%N then option_map (cons n0) (utf8_decode t0)
      else if in_range 194 223 b0 then
        match t0 with
        | b1 :: t1 =>
            if is_cont b1
            then option_map (cons ((n0 - 192) * 64 + cont_bits b1)%N) (utf8_decode t1)
            else None
        | _ => None
        end
      else if in_range 224 239 b0 then
        match t0 with
        | b1 :: b2 :: t2 =>
            if second_of_3 n0 b1 && is_cont b2
            then option_map
                   (cons ((n0 - 224) * 4096 + cont_bits b1 * 64 + cont_bits b2)%N)
                   (utf8_decode t2)
            else None
        | _ => None
        end
      else if in_range 240 244 b0 then
        match t0 with
        | b1 :: b2 :: b3 :: t3 =>
            if second_of_4 n0 b1 && is_cont b2 && is_cont b3
            then option_map
                   (cons ((n0 - 240) * 262144 + cont_bits b1 * 4096
                          + cont_bits b2 * 64 + cont_bits b3)%N)
                   (utf8_decode t3)
            else None
        | _ => None
        end
      else None
  end.

(** ** Exceptions *)

Inductive exn : Type :=
| BrokenPipeError
| ConnectionResetError
| TimeoutError
| OSError
| ValueError
| UnicodeDecodeError
| StructError
| AttributeError
| RuntimeError
| SystemExit
| KeyboardInterrupt.

(** [except Exception] catches everything but the two classes that derive
    from [BaseException] directly. *)
Definition is_Exception (e : exn) : bool :=
  match e with
  | SystemExit | KeyboardInterrupt => false
  | _ => true
  end.

(** [except BrokenPipeError] *)
Definition is_BrokenPipeError (e : exn) : bool :=
  match e with
  | BrokenPipeError => true
  | _ => false
  end.

(** ** Sockets and the world *)

(** What a socket does once the bytes of [rx] are read: the peer has closed
    ([recv] returns no bytes), the connection is broken ([recv] raises), or the
    peer stays silent ([recv] blocks). *)
Inductive stream_end : Type :=
| EOF
| Fault (e : exn)
| Silent.

Record sock : Type := mkSock {
  rx : list byte;                  (* bytes the peer still delivers, in order *)
  rx_end : stream_end;             (* what follows them *)
  tx_faults : list (option exn);   (* fate of the next calls of send:
                                      [Some e] raises [e]; past the end of
                                      the list every send succeeds *)
  sockname_port : N                (* the port of getsockname() *)
}.

(** The two sockets of a connection: the accepted client socket and the
    socket of the Tor stream. *)
Inductive sock_id : Type := CSock | SSock.

Definition sock_id_eqb (a b : sock_id) : bool :=
  match a, b with
  | CSock, CSock | SSock, SSock => true
  | _, _ => false
  end.

Inductive level : Type := Info | Error.

(** The messages of [L] and [E]. *)
Inductive message : Type :=
| MsgUnknownSocksError                       (* "Unknown socks error" *)
| MsgClosingServer                           (* "Closing server socket" *)
| MsgClosingClient                           (* "Closing client socket" *)
| MsgConnecting (dest : pystr) (port : N)    (* "Socket connecting to {dest}:{port}" *)
| MsgSuspending                              (* "Suspending stream #{id}" *)
| MsgTorCrashed                              (* "======== Tor crashed, please restart! ========" *)
| MsgClosedByException.                      (* "Socket closed by exception" *)

Inductive event : Type :=
| EvSend (s : sock_id) (data : list byte)    (* bytes handed to the socket *)
| EvClose (s : sock_id)
| EvCreateStream (dest : pystr) (port : N)   (* circuit.create_stream((dest, port)) *)
| EvCreateSocket                             (* tor_stream.create_socket() *)
| EvStreamExit                               (* the stream's __exit__ *)
| EvLog (l : level) (m : message).

(** One return of [select.select([ssock, csock], [], [])] in the relay: the
    list of readable sockets or an exception, and how many bytes have
    arrived on each socket by then. *)
Inductive select_result : Type :=
| SelReady (r : list sock_id)
| SelRaise (e : exn).

Record wake : Type := mkWake {
  w_select : select_result;
  w_savail : nat;
  w_cavail : nat
}.

Record world : Type := mkWorld {
  csock : sock;
  ssock : sock;
  client_sock : option sock_id;              (* the field self.client_sock *)
  create_stream_exn : pystr -> N -> option exn;
                                             (* what circuit.create_stream raises *)
  create_socket_exn : option exn;            (* what tor_stream.create_socket raises *)
  stream_exit_exn : option exn;              (* what the stream's __exit__ raises *)
  relay_script : list wake;                  (* the returns of select; when they
                                                are used up select blocks *)
  trace : list event
}.

Definition get_sock (s : sock_id) (w : world) : sock :=
  match s with
  | CSock => csock w
  | SSock => ssock w
  end.

Definition set_sock (s : sock_id) (k : sock) (w : world) : world :=
  match s with
  | CSock => mkWorld k (ssock w) (client_sock w) (create_stream_exn w)
               (create_socket_exn w) (stream_exit_exn w) (relay_script w) (trace w)
  | SSock => mkWorld (csock w) k (client_sock w) (create_stream_exn w)
               (create_socket_exn w) (stream_exit_exn w) (relay_script w) (trace w)
  end.

Definition set_rx (k : sock) (bs : list byte) : sock :=
  mkSock bs (rx_end k) (tx_faults k) (sockname_port k).

Definition set_tx_faults (k : sock) (fs : list (option exn)) : sock :=
  mkSock (rx k) (rx_end k) fs (sockname_port k).

Definition set_client_sock (v : option sock_id) (w : world) : world :=
  mkWorld (csock w) (ssock w) v (create_stream_exn w)
    (create_socket_exn w) (stream_exit_exn w) (relay_script w) (trace w).

Definition add_event (e : event) (w : world) : world :=
  mkWorld (csock w) (ssock w) (client_sock w) (create_stream_exn w)
    (create_socket_exn w) (stream_exit_exn w) (relay_script w) (trace w ++ [e]).

(** ** The monad of Python code *)

Inductive outcome (A : Type) : Type :=
| Val (a : A)
| Raise (e : exn)
| Hang.

Arguments Raise {A} e.
Arguments Hang {A}.

Definition M (A : Type) : Type := world -> outcome A * world.

Definition ret {A} (a : A) : M A := fun w => (Val a, w).

Definition raise {A} (e : exn) : M A := fun w => (Raise e, w).

Definition bind {A B} (c : M A) (k : A -> M B) : M B :=
  fun w =>
    match c w with
    | (Val a, w') => k a w'
    | (Raise e, w') => (Raise e, w')
    | (Hang, w') => (Hang, w')
    end.

Declare Scope py_scope.
Delimit Scope py_scope with py.
Notation "x <- c ;; k" := (bind c (fun x => k))
  (at level 61, c at next level, right associativity) : py_scope.
Notation "' pat <- c ;; k" := (bind c (fun x => match x with pat => k end))
  (at level 61, pat pattern, c at next level, right associativity) : py_scope.
Notation "c ;; k" := (bind c (fun _ => k))
  (at level 61, right associativity) : py_scope.
Open Scope py_scope.

(** [try: c  except <classes of h>: h e] *)
Definition try_except {A} (c : M A) (h : exn -> option (M A)) : M A :=
  fun w =>
    match c w with
    | (Raise e, w') =>
        match h e with
        | Some k => k w'
        | None => (Raise e, w')
        end
    | r => r
    end.

(** [try: c  finally: f].  An exception of [f] replaces the one of [c]. *)
Definition try_finally {A} (c : M A) (f : M unit) : M A :=
  fun w =>
    match c w with
    | (Hang, w') => (Hang, w')
    | (r, w') =>
        match f w' with
        | (Val _, w'') => (r, w'')
        | (Raise e, w'') => (Raise e, w'')
        | (Hang, w'') => (Hang, w'')
        end
    end.

Definition emit (e : event) : M unit := fun w => (Val tt, add_event e w).

(** [L(message)] and [E(message)] of the source: one printed line. *)
Definition L (m : message) : M unit := emit (EvLog Info m).

Definition E (m : message) : M unit := emit (EvLog Error m).

(** ** Socket methods *)

(** [sock.recv(bufsize)]: at most [bufsize] of the bytes that have arrived;
    [avail] says how many have (at least one, since the call waits for
    data).  With nothing left to read, the end of the stream decides. *)
Definition recv (s : sock_id) (bufsize avail : nat) : M (list byte) :=
  fun w =>
    let k := get_sock s w in
    match rx k with
    | [] =>
        match rx_end k with
        | EOF => (Val [], w)
        | Fault e => (Raise e, w)
        | Silent => (Hang, w)
        end
    | _ =>
        let n := Nat.min bufsize (Nat.max 1 avail) in
        (Val (firstn n (rx k)), set_sock s (set_rx k (skipn n (rx k))) w)
    end.

(** Modelled from the spec: [recv_exact] is imported from [torpy.utils] and
    is not part of the source.  It reads until [n] bytes have come or the
    connection closes early, and then returns what it has; the test
    [if not hbuf] of [Socks5.run] relies on the short result. *)
Definition recv_exact (s : sock_id) (n : nat) : M (list byte) :=
  fun w =>
    let k := get_sock s w in
    if (n <=? List.length (rx k))%nat
    then (Val (firstn n (rx k)), set_sock s (set_rx k (skipn n (rx k))) w)
    else
      let w' := set_sock s (set_rx k []) w in
      match rx_end k with
      | EOF => (Val (rx k), w')
      | Fault e => (Raise e, w')
      | Silent => (Hang, w')
      end.

(** [sock.send(data)] and [sock.sendall(data)]: the data is handed over, or
    the call raises and nothing is. *)
Definition send (s : sock_id) (data : list byte) : M unit :=
  fun w =>
    let k := get_sock s w in
    match tx_faults k with
    | [] => (Val tt, add_event (EvSend s data) w)
    | None :: fs =>
        (Val tt, add_event (EvSend s data) (set_sock s (set_tx_faults k fs) w))
    | Some e :: fs => (Raise e, set_sock s (set_tx_faults k fs) w)
    end.

Definition sendall := send.

(** [sock.close()] *)
Definition close (s : sock_id) : M unit := emit (EvClose s).

(** [_, port = sock.getsockname()] *)
Definition getsockname (s : sock_id) : M N :=
  fun w => (Val (sockname_port (get_sock s w)), w).

(** [struct.pack("!H", port)] *)
Definition struct_pack_H (port : N) : M (list byte) :=
  if (port <? 65536)%N
  then ret [byte_of_N (port / 256); byte_of_N (port mod 256)]
  else raise StructError.

(** [x, = array.array("B", buf)] *)
Definition unpack1 (buf : list byte) : M N :=
  match ints buf with
  | [x] => ret x
  | _ => raise ValueError
  end.

(** [a, b, c, d = list(buf)] *)
Definition unpack4 (buf : list byte) : M (N * N * N * N) :=
  match ints buf with
  | [a; b; c; d] => ret (a, b, c, d)
  | _ => raise ValueError
  end.

(** [buf.decode()] *)
Definition decode (buf : list byte) : M pystr :=
  match utf8_decode buf with
  | Some s => ret s
  | None => raise UnicodeDecodeError
  end.

(** [int(s, 16)] *)
Definition int_16 (s : pystr) : M N :=
  match int16 s with
  | Some n => ret n
  | None => raise ValueError
  end.

(** [select.select([ssock, csock], [], [])], answered by the script. *)
Definition select (k : wake) : M (list sock_id) :=
  match w_select k with
  | SelReady r => ret r
  | SelRaise e => raise e
  end.

Definition mem (s : sock_id) (r : list sock_id) : bool :=
  existsb (sock_id_eqb s) r.

(** [exit()] *)
Definition py_exit : M unit := raise SystemExit.

(** The generator expression [f() for _ in range(n)], run to its end. *)
Fixpoint for_range {A} (n : nat) (f : M A) : M (list A) :=
  match n with
  | O => ret []
  | S n' => x <- f ;; xs <- for_range n' f ;; ret (x :: xs)
  end.

(** ** [SocksProxy] (lines 37-66) *)

(** One side of the loop body (lines 50-54 and 55-59): [true] is [break]. *)
Definition relay_side (from to : sock_id) (r : list sock_id) (avail : nat) : M bool :=
  if mem from r then
    buf <- recv from 4096 avail ;;
    if (List.length buf =? 0)%nat then ret true
    else send to buf ;; ret false
  else ret false.

(** [while True:] of lines 48-59; each turn takes one return of [select]
    from the script. *)
Fixpoint relay_loop (ssock csock : sock_id) (script : list wake) : M unit :=
  match script with
  | [] => fun w => (Hang, w)
  | k :: script' =>
      r <- select k ;;
      brk <- relay_side ssock csock r (w_savail k) ;;
      if brk then ret tt else
      brk' <- relay_side csock ssock r (w_cavail k) ;;
      if brk' then ret tt else
      relay_loop ssock csock script'
  end.

(** The [finally] block, lines 63-66. *)
Definition relay_cleanup (ssock csock : sock_id) : M unit :=
  L MsgClosingServer ;;
  close ssock ;;
  L MsgClosingClient ;;
  close csock.

(** The [try] statement, lines 47-66. *)
Definition relay (ssock csock : sock_id) : M unit :=
  try_finally
    (try_except
       (fun w => relay_loop ssock csock (relay_script w) w)
       (fun _ => Some (E MsgUnknownSocksError)))
    (relay_cleanup ssock csock).

Definition success_reply_head : list byte :=
  [x05; x00; x00; x01; x7f; x00; x00; x01].

(** [SocksProxy(ssock, csock).run()] *)
Definition SocksProxy_run (ssock csock : sock_id) : M unit :=
  port <- getsockname csock ;;
  packed <- struct_pack_H port ;;
  sendall csock (success_reply_head ++ packed) ;;
  relay ssock csock.

(** ** [Socks5] (lines 98-159) *)

(** [self.client_sock], about to be used: [None] has no methods. *)
Definition self_client_sock : M sock_id :=
  fun w =>
    match client_sock w with
    | Some s => (Val s, w)
    | None => (Raise AttributeError, w)
    end.

Definition assign_client_sock (v : option sock_id) : M unit :=
  fun w => (Val tt, set_client_sock v w).

Definition default_err : list byte := [x01; x00].

(** [Socks5.error], lines 106-112. *)
Definition Socks5_error (err : list byte) : M unit :=
  try_except
    (s <- self_client_sock ;;
     send s (x05 :: err) ;;
     s' <- self_client_sock ;;
     close s' ;;
     assign_client_sock None)
    (fun _ => Some (ret tt)).

(** [self.circuit.create_stream((dest, port))], entered. *)
Definition circuit_create_stream (dest : pystr) (port : N) : M unit :=
  emit (EvCreateStream dest port) ;;
  fun w =>
    match create_stream_exn w dest port with
    | Some e => (Raise e, w)
    | None => (Val tt, w)
    end.

(** The [__exit__] of the stream. *)
Definition tor_stream_exit : M unit :=
  emit EvStreamExit ;;
  fun w =>
    match stream_exit_exn w with
    | Some e => (Raise e, w)
    | None => (Val tt, w)
    end.

(** [with self.circuit.create_stream((dest, port)) as tor_stream: body].
    The stream is left through its [__exit__] whether [body] returns or
    raises. *)
Definition with_create_stream {A} (dest : pystr) (port : N) (body : M A) : M A :=
  circuit_create_stream dest port ;;
  try_finally body tor_stream_exit.

(** [tor_stream.create_socket()] *)
Definition tor_stream_create_socket : M sock_id :=
  emit EvCreateSocket ;;
  fun w =>
    match create_socket_exn w with
    | Some e => (Raise e, w)
    | None => (Val SSock, w)
    end.

(** [with self.create_socket(dest, port) as ssock: body ssock], with the
    context manager of lines 114-119 unfolded: [body] runs at the [yield],
    and an exception of [body] is thrown at the [yield], so that line 119 is
    skipped. *)
Definition Socks5_create_socket {A} (dest : pystr) (port : N)
    (body : sock_id -> M A) : M A :=
  L (MsgConnecting dest port) ;;
  with_create_stream dest port
    (s <- tor_stream_create_socket ;;
     a <- body s ;;
     L MsgSuspending ;;
     ret a).

(** Lines 124-129.  [false]: [run] has returned through [self.error]. *)
Definition run_greeting (csock : sock_id) : M bool :=
  ver <- recv csock 1 1 ;;
  if negb (bytes_eqb ver [x05]) then
    Socks5_error [xff] ;; ret false
  else
    b <- recv csock 1 1 ;;
    nmeth <- unpack1 b ;;
    _ <- recv_exact csock (N.to_nat nmeth) ;;
    send csock [x05; x00] ;;
    ret true.

(** Lines 138-147, the address of the request. [None]: [run] has returned
    through [self.error]. *)
Definition run_address (csock : sock_id) (atyp : N) : M (option pystr) :=
  if (atyp =? 1)%N then
    buf <- recv_exact csock 4 ;;
    ret (Some (join (str_of_string ".") (map py_str (ints buf))))
  else if (atyp =? 3)%N then
    b <- recv csock 1 1 ;;
    n <- unpack1 b ;;
    buf <- recv_exact csock (N.to_nat n) ;;
    dest <- decode buf ;;
    ret (Some dest)
  else if (atyp =? 4)%N then
    groups <- for_range 8 (buf <- recv_exact csock 2 ;; ret (hex buf)) ;;
    let dest := join (str_of_string ":") groups in
    Socks5_error default_err ;; ret None
  else
    Socks5_error default_err ;; ret None.

(** Lines 130-149.  [None]: [run] has returned through [self.error];
    [Some (dest, port)]: the destination of the request. *)
Definition run_request (csock : sock_id) : M (option (pystr * N)) :=
  hbuf <- recv_exact csock 4 ;;
  if (List.length hbuf =? 0)%nat then
    Socks5_error default_err ;; ret None
  else
    '(ver, cmd, _, atyp) <- unpack4 hbuf ;;
    if negb (ver =? 5)%N && negb (cmd =? 1)%N then
      Socks5_error default_err ;; ret None
    else
      a <- run_address csock atyp ;;
      match a with
      | None => ret None
      | Some dest =>
          pbuf <- recv_exact csock 2 ;;
          port <- int_16 (hex pbuf) ;;
          ret (Some (dest, port))
      end.

(** Lines 150-155. *)
Definition run_connect (csock : sock_id) (dest : pystr) (port : N) : M unit :=
  try_except
    (Socks5_create_socket dest port (fun ssock => SocksProxy_run ssock csock))
    (fun e =>
       if is_BrokenPipeError e
       then Some (E MsgTorCrashed ;; py_exit)
       else None).

(** Lines 124-149, the negotiation: the destination of the request, or
    [None] when [run] has returned through [self.error]. *)
Definition Socks5_handshake (csock : sock_id) : M (option (pystr * N)) :=
  ok <- run_greeting csock ;;
  if ok : bool then run_request csock else ret None.

(** The handler of lines 156-159, [except Exception]. *)
Definition run_except (csock : sock_id) (e : exn) : option (M unit) :=
  if is_Exception e
  then Some (E MsgClosedByException ;;
             close csock ;;
             assign_client_sock None)
  else None.

(** [Socks5.run], lines 121-159.  Were [self.client_sock] unset, the first
    [csock.recv] would raise inside the [try] and [csock.close()] again in
    the handler. *)
Definition Socks5_run : M unit :=
  fun w0 =>
    match client_sock w0 with
    | None => (E MsgClosedByException ;; raise AttributeError) w0
    | Some csock =>
        try_except
          (r <- Socks5_handshake csock ;;
           match r with
           | None => ret tt
           | Some (dest, port) => run_connect csock dest port
           end)
          (run_except csock) w0
    end.

(** ** Observations on a trace *)

(** All the bytes handed to socket [s], in order. *)
Fixpoint sent_bytes (s : sock_id) (tr : list event) : list byte :=
  match tr with
  | [] => []
  | EvSend s' data :: tr' =>
      if sock_id_eqb s s' then data ++ sent_bytes s tr' else sent_bytes s tr'
  | _ :: tr' => sent_bytes s tr'
  end.

(** How many times socket [s] was closed. *)
Fixpoint closes (s : sock_id) (tr : list event) : nat :=
  match tr with
  | [] => 0
  | EvClose s' :: tr' =>
      if sock_id_eqb s s' then S (closes s tr') else closes s tr'
  | _ :: tr' => closes s tr'
  end.

Definition is_close (e : event) : bool :=
  match e with
  | EvClose _ => true
  | _ => false
  end.

(** Whether [circuit.create_stream] was called. *)
Definition is_create_stream (e : event) : bool :=
  match e with
  | EvCreateStream _ _ => true
  | _ => false
  end.

(** The next [n] calls of [send] on a socket with the faults [fs] succeed. *)
Fixpoint sends_ok (n : nat) (fs : list (option exn)) : bool :=
  match n, fs with
  | O, _ => true
  | S _, [] => true
  | S n', None :: fs' => sends_ok n' fs'
  | S _, Some _ :: _ => false
  end.

(** Code [c] only appends events to the trace, all of them in [P]. *)
Definition emits {A} (P : event -> Prop) (c : M A) : Prop :=
  forall w, exists evs, trace (snd (c w)) = trace w ++ evs /\ Forall P evs.

(** Started in [w], code [c] first appends the events [pre]. *)
Definition starts_with {A} (pre : list event) (c : M A) (w : world) : Prop :=
  exists evs, trace (snd (c w)) = trace w ++ pre ++ evs.

(** The world [w] after the client socket has been read up to [rest],
    [sends] calls of [send] on it have been answered and the events [evs]
    have happened. *)
Definition advance (w : world) (rest : list byte) (sends : nat)
    (evs : list event) : world :=
  mkWorld
    (mkSock rest (rx_end (csock w)) (skipn sends (tx_faults (csock w)))
       (sockname_port (csock w)))
    (ssock w) (client_sock w) (create_stream_exn w) (create_socket_exn w)
    (stream_exit_exn w) (relay_script w) (trace w ++ evs).

(** The guard of line 135 lets the request through. *)
Definition passes_guard (ver cmd : byte) : Prop := ver = x05 \/ cmd = x01.

Definition any_event (e : event) : Prop := True.

Definition not_close (e : event) : Prop := is_close e = false.

(** The four events of the [finally] block of the relay. *)
Definition cleanup_events (ssock csock : sock_id) : list event :=
  [EvLog Info MsgClosingServer; EvClose ssock;
   EvLog Info MsgClosingClient; EvClose csock].

(** ** The client's side of the wire *)

(** The rendering of one byte in decimal, digit by digit. *)
Definition decimal_of_byte (b : byte) : pystr :=
  let n := Byte.to_N b in
  if (n <? 10)%N then [48 + n]%N
  else if (n <? 100)%N then [48 + n / 10; 48 + n mod 10]%N
  else [48 + n / 100; 48 + (n / 10) mod 10; 48 + n mod 10]%N.

(** The dotted-decimal rendering of an IPv4 address. *)
Definition dotted_decimal (a b c d : byte) : pystr :=
  decimal_of_byte a ++ [46%N] ++ decimal_of_byte b ++ [46%N]
  ++ decimal_of_byte c ++ [46%N] ++ decimal_of_byte d.

(** A port of the wire: two bytes, the high one first. *)
Definition big_endian16 (hi lo : byte) : N :=
  (256 * Byte.to_N hi + Byte.to_N lo)%N.

Definition printable_ascii (c : N) : Prop := (32 <= c <= 126)%N.

(** How a client writes a domain name in a request: one byte of length,
    then the characters. *)
Definition encode_domain (dom : pystr) : list byte :=
  byte_of_N (N.of_nat (List.length dom)) :: map byte_of_N dom.

(** ** Sample connections *)

(** A client who sends [input] and then closes its side; the circuit
    accepts every destination; [select] follows [script]. *)
Definition client_world (input : list byte) (script : list wake) : world :=
  mkWorld (mkSock input EOF [] 1050) (mkSock [] EOF [] 0) (Some CSock)
    (fun _ _ => None) None None script [].

(** The same with a circuit whose [create_stream] raises [e]. *)
Definition failing_circuit_world (input : list byte) (e : exn) : world :=
  mkWorld (mkSock input EOF [] 1050) (mkSock [] EOF [] 0) (Some CSock)
    (fun _ _ => Some e) None None [] [].

(** The same with a client who is gone before the first reply: the first
    [send] raises [e]. *)
Definition gone_client_world (input : list byte) (e : exn) : world :=
  mkWorld (mkSock input EOF [Some e] 1050) (mkSock [] EOF [] 0) (Some CSock)
    (fun _ _ => None) None None [] [].

(** The greeting [05 01 00]: version 5, one method, no authentication. *)
Definition greeting_noauth : list byte := [x05; x01; x00].

(** CONNECT to 127.0.0.1:80, as [05 01 00 01 7F 00 00 01 00 50]. *)
Definition connect_localhost_80 : list byte :=
  [x05; x01; x00; x01; x7f; x00; x00; x01; x00; x50].

(** BIND (command 2) to the same address. *)
Definition bind_localhost_80 : list byte :=
  [x05; x02; x00; x01; x7f; x00; x00; x01; x00; x50].

(** One return of [select] with the client socket readable. *)
Definition client_readable : wake := mkWake (SelReady [CSock]) 0 1.

(** ** More observations *)

Definition is_stream_exit (e : event) : bool :=
  match e with
  | EvStreamExit => true
  | _ => false
  end.

(** How many times the stream was left through its [__exit__]. *)
Fixpoint stream_exits (tr : list event) : nat :=
  match tr with
  | [] => 0
  | e :: tr' => if is_stream_exit e then S (stream_exits tr') else stream_exits tr'
  end.

Definition not_stream_exit (e : event) : Prop := is_stream_exit e = false.

(** What the relay loop puts on the trace: a chunk of one to 4096 bytes
    handed to a socket. *)
Definition relay_chunk (e : event) : Prop :=
  match e with
  | EvSend _ data => (1 <= List.length data <= 4096)%nat
  | _ => False
  end.

(** The circuit and the script of [select] are the same in [w] and [w']. *)
Definition same_circuit (w w' : world) : Prop :=
  create_stream_exn w' = create_stream_exn w /\
  create_socket_exn w' = create_socket_exn w /\
  stream_exit_exn w' = stream_exit_exn w /\
  relay_script w' = relay_script w.

(** Code [c] leaves the circuit and the script of [select] alone. *)
Definition keeps_circuit {A} (c : M A) : Prop :=
  forall w, same_circuit w (snd (c w)).

(** A connection in full: what the client sends and which of the sends to
    it fail, what the tunnel delivers, what the three calls on the circuit
    raise, and the returns of [select]. *)
Definition connection_world (input : list byte) (faults : list (option exn))
    (tunnel : list byte) (stream socket exit : option exn)
    (script : list wake) : world :=
  mkWorld (mkSock input EOF faults 1050) (mkSock tunnel EOF [] 0) (Some CSock)
    (fun _ _ => stream) socket exit script [].

(** The inverse of [decimal_of_byte] on strings of digits. *)
Definition int10 (s : pystr) : N :=
  fold_left (fun acc c => (10 * acc + (c - 48))%N) s 0%N.

(** ** [SocksServer] (lines 68-96)

    The listener has a state of its own: what the calls on the listening
    socket raise, the returns of [accept] one after the other, and its own
    trace. *)

Definition address : Type := (pystr * N)%type.

Inductive sv_message : Type :=
| SvInitialized                      (* "Socks5 proxy initialized at 127.0.0.1:1050" *)
| SvClosingByUser                    (* "Closing socket by user request" *)
| SvConnected (caddr : address)      (* "Tor connected to {caddr}" *)
| SvException                        (* "Exception in socks5 server: " *)
| SvLine (line : pystr).             (* one line of format_exception *)

Inductive sv_event : Type :=
| SvSocket (family type proto : N)   (* socket.socket(family, type, proto) *)
| SvReuseAddr                        (* setsockopt(SOL_SOCKET, SO_REUSEADDR, 1) *)
| SvBind (addr : address)
| SvListen (backlog : N)
| SvThreadStart (name : pystr) (caddr : address)
                                     (* Socks5(circuit, csock, caddr).start() *)
| SvClose                            (* listen_socket.close() *)
| SvLog (l : level) (m : sv_message).

(** One return of [accept]: a connection from [caddr], with what starting
    its thread raises, or an exception. *)
Inductive accept_result : Type :=
| Accepted (caddr : address) (thread_exn : option exn)
| AcceptRaises (e : exn).

Record listener : Type := mkListener {
  listen_socket : bool;              (* self.listen_socket is a socket, not None *)
  socket_exn : option exn;           (* what socket.socket raises *)
  setsockopt_exn : option exn;
  bind_exn : option exn;
  listen_exn : option exn;
  accepts : list accept_result;      (* when they are used up accept blocks *)
  format_exception : exn -> list pystr;
  sv_trace : list sv_event
}.

Definition SM (A : Type) : Type := listener -> outcome A * listener.

Definition sv_ret {A} (a : A) : SM A := fun l => (Val a, l).

Definition sv_raise {A} (e : exn) : SM A := fun l => (Raise e, l).

Definition sv_bind {A B} (c : SM A) (k : A -> SM B) : SM B :=
  fun l =>
    match c l with
    | (Val a, l') => k a l'
    | (Raise e, l') => (Raise e, l')
    | (Hang, l') => (Hang, l')
    end.

Declare Scope sv_scope.
Delimit Scope sv_scope with sv.
Notation "x <- c ;; k" := (sv_bind c (fun x => k))
  (at level 61, c at next level, right associativity) : sv_scope.
Notation "c ;; k" := (sv_bind c (fun _ => k))
  (at level 61, right associativity) : sv_scope.

Definition sv_emit (e : sv_event) : SM unit :=
  fun l =>
    (Val tt,
     mkListener (listen_socket l) (socket_exn l) (setsockopt_exn l) (bind_exn l)
       (listen_exn l) (accepts l) (format_exception l) (sv_trace l ++ [e])).

Definition sv_L (m : sv_message) : SM unit := sv_emit (SvLog Info m).

Definition sv_E (m : sv_message) : SM unit := sv_emit (SvLog Error m).

(** A call on the listening socket: it raises what the listener says, or
    happens. *)
Definition sv_call (fate : listener -> option exn) (e : sv_event) : SM unit :=
  fun l =>
    match fate l with
    | Some x => (Raise x, l)
    | None => sv_emit e l
    end.

Definition set_listen_socket (v : bool) : SM unit :=
  fun l =>
    (Val tt,
     mkListener v (socket_exn l) (setsockopt_exn l) (bind_exn l)
       (listen_exn l) (accepts l) (format_exception l) (sv_trace l)).

(** [self.listen_socket], about to be used. *)
Definition self_listen_socket : SM unit :=
  fun l => if listen_socket l then (Val tt, l) else (Raise AttributeError, l).

(** [SocksServer.__init__], lines 69-71. *)
Definition SocksServer_init : SM unit := set_listen_socket false.

(** [SocksServer.__enter__], lines 73-79. *)
Definition SocksServer_enter : SM unit :=
  (sv_call socket_exn (SvSocket 2 1 6) ;;
   set_listen_socket true ;;
   sv_call setsockopt_exn SvReuseAddr ;;
   sv_call bind_exn (SvBind (str_of_string "127.0.0.1", 1050%N)) ;;
   sv_L SvInitialized ;;
   sv_call listen_exn (SvListen 0))%sv.

(** [str.strip()] and [str.rstrip(chars)] *)
Definition is_space (c : N) : bool :=
  existsb (N.eqb c)
    [9; 10; 11; 12; 13; 28; 29; 30; 31; 32; 133; 160; 5760; 8192; 8193; 8194;
     8195; 8196; 8197; 8198; 8199; 8200; 8201; 8202; 8232; 8233; 8239; 8287;
     12288]%N.

Fixpoint lstrip (f : N -> bool) (s : pystr) : pystr :=
  match s with
  | [] => []
  | c :: s' => if f c then lstrip f s' else s
  end.

Definition rstrip (f : N -> bool) (s : pystr) : pystr :=
  rev (lstrip f (rev s)).

Definition py_strip (s : pystr) : pystr := rstrip is_space (lstrip is_space s).

Definition is_cr_lf (c : N) : bool := ((c =? 13) || (c =? 10))%N.

Fixpoint sv_for_each {A} (xs : list A) (f : A -> SM unit) : SM unit :=
  match xs with
  | [] => sv_ret tt
  | x :: xs' => (f x ;; sv_for_each xs' f)%sv
  end.

(** [SocksServer.__exit__], lines 81-86; [exc] is the exception the body of
    the [with] raised, if any. *)
Definition SocksServer_exit (exc : option exn) : SM unit :=
  (self_listen_socket ;;
   sv_emit SvClose ;;
   match exc with
   | None => sv_ret tt
   | Some e =>
       sv_E SvException ;;
       fun l =>
         sv_for_each (format_exception l e)
           (fun line => sv_E (SvLine (rstrip is_cr_lf (py_strip line)))) l
   end)%sv.

(** [self.listen_socket.accept()], answered by the script. *)
Definition sv_accept (a : accept_result) : SM address :=
  (self_listen_socket ;;
   match a with
   | Accepted caddr _ => sv_ret caddr
   | AcceptRaises e => sv_raise e
   end)%sv.

(** [Socks5(self.circuit, csock, caddr).start()]: the thread is named
    after the port of the client (line 100) and started. *)
Definition Socks5_start (caddr : address) (a : accept_result) : SM unit :=
  sv_call
    (fun _ => match a with
              | Accepted _ thread_exn => thread_exn
              | AcceptRaises _ => None
              end)
    (SvThreadStart (str_of_string "Socks-" ++ py_str (snd caddr)) caddr).

(** [while True:] of lines 89-96; each turn takes one return of [accept]. *)
Fixpoint accept_loop (script : list accept_result) : SM unit :=
  match script with
  | [] => fun l => (Hang, l)
  | a :: script' =>
      (caddr <-
         (fun l =>
            match sv_accept a l with
            | (Raise e, l') => (sv_L SvClosingByUser ;; sv_raise e) l'
            | r => r
            end) ;;
       sv_L (SvConnected caddr) ;;
       Socks5_start caddr a ;;
       accept_loop script')%sv
  end.

(** [SocksServer.start], lines 88-96. *)
Definition SocksServer_start : SM unit :=
  fun l => accept_loop (accepts l) l.

(** [with SocksServer(circuit) as socks_serv: body], as in lines 164-165:
    [__exit__] returns [None], so an exception of [body] goes on. *)
Definition with_SocksServer {A} (body : SM A) : SM A :=
  (SocksServer_init ;;
   SocksServer_enter ;;
   fun l =>
     match body l with
     | (Val a, l') => (SocksServer_exit None ;; sv_ret a) l'
     | (Raise e, l') => (SocksServer_exit (Some e) ;; sv_raise e) l'
     | (Hang, l') => (Hang, l')
     end)%sv.

(** Lines 164-165 without the circuit. *)
Definition serve : SM unit := with_SocksServer SocksServer_start.

(** How many times the listening socket was closed. *)
Fixpoint sv_closes (tr : list sv_event) : nat :=
  match tr with
  | [] => 0
  | SvClose :: tr' => S (sv_closes tr')
  | _ :: tr' => sv_closes tr'
  end.

(** The connections for which a thread was started, in order. *)
Fixpoint sv_started (tr : list sv_event) : list address :=
  match tr with
  | [] => []
  | SvThreadStart _ caddr :: tr' => caddr :: sv_started tr'
  | _ :: tr' => sv_started tr'
  end.

(** The events of serving the connection from [caddr]. *)
Definition served (caddr : address) : list sv_event :=
  [SvLog Info (SvConnected caddr);
   SvThreadStart (str_of_string "Socks-" ++ py_str (snd caddr)) caddr].

(** The events of a successful [__enter__]. *)
Definition entered : list sv_event :=
  [SvSocket 2 1 6; SvReuseAddr; SvBind (str_of_string "127.0.0.1", 1050%N);
   SvLog Info SvInitialized; SvListen 0].

(** A listener on which every call succeeds. *)
Definition sound_listener (script : list accept_result) : listener :=
  mkListener false None None None None script (fun _ => []) [].

(** The listener [l] after the events [evs]. *)
Definition sv_advance (l : listener) (evs : list sv_event) : listener :=
  mkListener (listen_socket l) (socket_exn l) (setsockopt_exn l) (bind_exn l)
    (listen_exn l) (accepts l) (format_exception l) (sv_trace l ++ evs).

(** What [__exit__] logs for the exception [e]. *)
Definition logged_exception (l : listener) (e : exn) : list sv_event :=
  SvLog Error SvException
  :: map (fun line => SvLog Error (SvLine (rstrip is_cr_lf (py_strip line))))
       (format_exception l e).

(** The host that line 139 makes of the address bytes [buf]. *)
Definition ipv4_host (buf : list byte) : pystr :=
  join (str_of_string ".") (map py_str (ints buf)).

(** * Properties *)

(** ** Lists and bytes *)

Lemma firstn_length_app {A} (l1 l2 : list A) :
  firstn (List.length l1) (l1 ++ l2) = l1.
Proof.
  induction l1 as [|x l1 IH]; cbn; [now destruct l2 | now rewrite IH].
Qed.

Lemma skipn_length_app {A} (l1 l2 : list A) :
  skipn (List.length l1) (l1 ++ l2) = l2.
Proof. induction l1 as [|x l1 IH]; cbn; auto. Qed.

Lemma byte_neq_eqb (a b : byte) : a <> b -> Byte.eqb a b = false.
Proof.
  intros Hne. destruct (Byte.eqb a b) eqn:Heq; [|reflexivity].
  now apply Byte.byte_dec_bl in Heq.
Qed.

Lemma to_N_lt_256 (b : byte) : (Byte.to_N b < 256)%N.
Proof. pose proof (Byte.to_N_bounded b). lia. Qed.

Lemma byte_of_to_N (b : byte) : byte_of_N (Byte.to_N b) = b.
Proof. unfold byte_of_N. now rewrite Byte.of_to_N. Qed.

Lemma to_N_byte_of_N (n : N) : (n < 256)%N -> Byte.to_N (byte_of_N n) = n.
Proof.
  intros Hn. unfold byte_of_N.
  destruct (Byte.of_N n) as [b|] eqn:Hb.
  - now apply Byte.to_of_N.
  - apply Byte.of_N_None_iff in Hb. lia.
Qed.

(** ** Socket methods, step by step *)

Lemma recv_exact_app (s : sock_id) (w : world) (bs rest : list byte) (n : nat) :
  rx (get_sock s w) = bs ++ rest ->
  List.length bs = n ->
  recv_exact s n w = (Val bs, set_sock s (set_rx (get_sock s w) rest) w).
Proof.
  intros Hrx Hn. unfold recv_exact. rewrite Hrx, length_app.
  replace (n <=? List.length bs + List.length rest)%nat with true
    by (symmetry; apply Nat.leb_le; lia).
  subst n. now rewrite firstn_length_app, skipn_length_app.
Qed.

Lemma recv_one (s : sock_id) (w : world) (b : byte) (rest : list byte) (a : nat) :
  rx (get_sock s w) = b :: rest ->
  recv s 1 a w = (Val [b], set_sock s (set_rx (get_sock s w) rest) w).
Proof.
  intros Hrx. unfold recv. rewrite Hrx. destruct a as [|[|a]]; reflexivity.
Qed.

Lemma sends_ok_tl (n : nat) (fs : list (option exn)) :
  sends_ok (S n) fs = true -> sends_ok n (tl fs) = true.
Proof.
  destruct fs as [|[e|] fs]; cbn; try discriminate; auto.
  now destruct n.
Qed.

Lemma sends_ok_one (n : nat) (fs : list (option exn)) :
  sends_ok (S n) fs = true -> sends_ok 1 fs = true.
Proof. destruct fs as [|[e|] fs]; cbn; try discriminate; auto. Qed.

Lemma send_ok (s : sock_id) (w : world) (data : list byte) :
  sends_ok 1 (tx_faults (get_sock s w)) = true ->
  send s data w =
  (Val tt,
   add_event (EvSend s data)
     (set_sock s (set_tx_faults (get_sock s w) (tl (tx_faults (get_sock s w)))) w)).
Proof.
  unfold send. intros H.
  destruct (tx_faults (get_sock s w)) as [|[e|] fs] eqn:Hfs; cbn in *;
    try discriminate; [|reflexivity].
  f_equal. f_equal. destruct w as [[? ? ? ?] [? ? ? ?] ? ? ? ? ? ?], s; cbn in *;
    now subst.
Qed.

(** ** [Socks5.error] *)

Lemma Socks5_error_sent (err : list byte) (w : world) (s : sock_id) :
  client_sock w = Some s ->
  sends_ok 1 (tx_faults (get_sock s w)) = true ->
  Socks5_error err w =
  (Val tt,
   set_client_sock None
     (add_event (EvClose s)
        (add_event (EvSend s (x05 :: err))
           (set_sock s
              (set_tx_faults (get_sock s w) (tl (tx_faults (get_sock s w)))) w)))).
Proof.
  intros Hcs Htx.
  unfold Socks5_error, try_except, bind, self_client_sock. rewrite Hcs.
  rewrite send_ok by assumption.
  destruct w as [[? ? ? ?] [? ? ? ?] ? ? ? ? ? ?], s; cbn in *; subst; reflexivity.
Qed.

Lemma Socks5_error_send_raises (err : list byte) (w : world) (s : sock_id)
    (e : exn) (fs : list (option exn)) :
  client_sock w = Some s ->
  tx_faults (get_sock s w) = Some e :: fs ->
  Socks5_error err w = (Val tt, set_sock s (set_tx_faults (get_sock s w) fs) w).
Proof.
  intros Hcs Htx.
  unfold Socks5_error, try_except, bind, self_client_sock, send.
  now rewrite Hcs, Htx.
Qed.

Lemma Socks5_error_returns (err : list byte) (w : world) :
  fst (Socks5_error err w) = Val tt.
Proof.
  unfold Socks5_error, try_except, bind, self_client_sock, send.
  destruct w as [[r e f p] [r' e' f' p'] [s|] ? ? ? ? ?]; [|reflexivity].
  destruct s; cbn.
  - destruct f as [|[x|] f]; reflexivity.
  - destruct f' as [|[x|] f']; reflexivity.
Qed.

(** C10: [Socks5.error] never raises, but when [send] raises it neither
    closes the client socket nor clears [self.client_sock]; on the
    connection of [gone_client_world], which starts with a wrong version
    byte, [run] therefore ends with the socket not closed and the field
    still set. *)
Theorem Socks5_error_not_atomic :
  (forall err w, fst (Socks5_error err w) = Val tt) /\
  (forall err w s e fs,
      client_sock w = Some s ->
      tx_faults (get_sock s w) = Some e :: fs ->
      trace (snd (Socks5_error err w)) = trace w /\
      client_sock (snd (Socks5_error err w)) = Some s) /\
  (fst (Socks5_run (gone_client_world [x04] BrokenPipeError)) = Val tt /\
   closes CSock (trace (snd (Socks5_run (gone_client_world [x04] BrokenPipeError)))) = 0%nat /\
   client_sock (snd (Socks5_run (gone_client_world [x04] BrokenPipeError))) = Some CSock).
Proof.
  split; [exact Socks5_error_returns|]. split.
  - intros err w s e fs Hcs Htx.
    rewrite (Socks5_error_send_raises err w Hcs Htx).
    destruct w as [[? ? ? ?] [? ? ? ?] ? ? ? ? ? ?], s; cbn in *; auto.
  - repeat split; reflexivity.
Qed.

Lemma Socks5_error_not_atomic_witness :
  trace (snd (Socks5_error default_err (gone_client_world [] ConnectionResetError))) = [] /\
  client_sock (snd (Socks5_error default_err (gone_client_world [] ConnectionResetError)))
  = Some CSock.
Proof.
  exact (proj1 (proj2 Socks5_error_not_atomic) default_err
           (gone_client_world [] ConnectionResetError) CSock ConnectionResetError []
           eq_refl eq_refl).
Defined.

(** ** The trace only grows *)

Section Emits.

Variable P : event -> Prop.

Lemma emits_ret {A} (a : A) : emits P (ret a).
Proof. intros w. exists []. cbn. now rewrite app_nil_r. Qed.

Lemma emits_raise {A} (e : exn) : emits P (@raise A e).
Proof. intros w. exists []. cbn. now rewrite app_nil_r. Qed.

Lemma emits_pure {A} (f : world -> outcome A) : emits P (fun w => (f w, w)).
Proof. intros w. exists []. cbn. now rewrite app_nil_r. Qed.

Lemma emits_bind {A B} (c : M A) (k : A -> M B) :
  emits P c -> (forall a, emits P (k a)) -> emits P (bind c k).
Proof.
  intros Hc Hk w. unfold bind.
  destruct (Hc w) as (evs & Hevs & HP).
  destruct (c w) as [[a|e|] w1]; cbn in *; try (exists evs; now split).
  destruct (Hk a w1) as (evs' & Hevs' & HP').
  exists (evs ++ evs'). split.
  - now rewrite Hevs', Hevs, app_assoc.
  - apply Forall_app; now split.
Qed.

Lemma emits_try_except {A} (c : M A) (h : exn -> option (M A)) :
  emits P c -> (forall e k, h e = Some k -> emits P k) ->
  emits P (try_except c h).
Proof.
  intros Hc Hh w. unfold try_except.
  destruct (Hc w) as (evs & Hevs & HP).
  destruct (c w) as [[a|e|] w1]; cbn in *; try (exists evs; now split).
  destruct (h e) as [k|] eqn:Hk; [|exists evs; now split].
  destruct (Hh e k Hk w1) as (evs' & Hevs' & HP').
  exists (evs ++ evs'). split.
  - now rewrite Hevs', Hevs, app_assoc.
  - apply Forall_app; now split.
Qed.

Lemma emits_try_finally {A} (c : M A) (f : M unit) :
  emits P c -> emits P f -> emits P (try_finally c f).
Proof.
  intros Hc Hf w. unfold try_finally.
  destruct (Hc w) as (evs & Hevs & HP).
  destruct (c w) as [[a|e|] w1]; cbn in *; try (exists evs; now split);
    destruct (Hf w1) as (evs' & Hevs' & HP');
    exists (evs ++ evs');
    (split; [|apply Forall_app; now split]);
    destruct (f w1) as [[[]|e'|] w2]; cbn in *;
    now rewrite Hevs', Hevs, app_assoc.
Qed.

Lemma emits_emit (e : event) : P e -> emits P (emit e).
Proof. intros He w. exists [e]. split; [reflexivity | now constructor]. Qed.

Lemma emits_set_sock {A} (f : world -> outcome A) (s : sock_id)
    (g : world -> sock) :
  emits P (fun w => (f w, set_sock s (g w) w)).
Proof.
  intros w. exists []. split; [|constructor].
  cbn. rewrite app_nil_r. now destruct s.
Qed.

Lemma emits_recv (s : sock_id) (n a : nat) : emits P (recv s n a).
Proof.
  intros w. exists []. split; [|constructor]. rewrite app_nil_r.
  unfold recv. destruct (rx (get_sock s w)); [destruct (rx_end (get_sock s w))|];
    cbn; try reflexivity; now destruct s.
Qed.

Lemma emits_recv_exact (s : sock_id) (n : nat) : emits P (recv_exact s n).
Proof.
  intros w. exists []. split; [|constructor]. rewrite app_nil_r.
  unfold recv_exact.
  destruct (n <=? List.length (rx (get_sock s w)))%nat;
    [|destruct (rx_end (get_sock s w))]; cbn; now destruct s.
Qed.

Lemma emits_send (s : sock_id) (data : list byte) :
  P (EvSend s data) -> emits P (send s data).
Proof.
  intros He w. unfold send.
  destruct (tx_faults (get_sock s w)) as [|[e|] fs]; cbn.
  - exists [EvSend s data]. split; [reflexivity | now constructor].
  - exists []. split; [|constructor]. rewrite app_nil_r. now destruct s.
  - exists [EvSend s data]. split; [now destruct s | now constructor].
Qed.

Lemma emits_close (s : sock_id) : P (EvClose s) -> emits P (close s).
Proof. apply emits_emit. Qed.

Lemma emits_L (m : message) : P (EvLog Info m) -> emits P (L m).
Proof. apply emits_emit. Qed.

Lemma emits_E (m : message) : P (EvLog Error m) -> emits P (E m).
Proof. apply emits_emit. Qed.

Lemma emits_getsockname (s : sock_id) : emits P (getsockname s).
Proof. apply (emits_pure (fun w => Val (sockname_port (get_sock s w)))). Qed.

Lemma emits_struct_pack_H (port : N) : emits P (struct_pack_H port).
Proof.
  unfold struct_pack_H. destruct (port <? 65536)%N;
    [apply emits_ret | apply emits_raise].
Qed.

Lemma emits_unpack1 (buf : list byte) : emits P (unpack1 buf).
Proof.
  unfold unpack1. destruct (ints buf) as [|x [|y l]];
    first [apply emits_ret | apply emits_raise].
Qed.

Lemma emits_unpack4 (buf : list byte) : emits P (unpack4 buf).
Proof.
  unfold unpack4. destruct (ints buf) as [|a [|b [|c [|d [|x l]]]]];
    first [apply emits_ret | apply emits_raise].
Qed.

Lemma emits_decode (buf : list byte) : emits P (decode buf).
Proof.
  unfold decode. destruct (utf8_decode buf);
    [apply emits_ret | apply emits_raise].
Qed.

Lemma emits_int_16 (s : pystr) : emits P (int_16 s).
Proof.
  unfold int_16. destruct (int16 s); [apply emits_ret | apply emits_raise].
Qed.

Lemma emits_select (k : wake) : emits P (select k).
Proof.
  unfold select. destruct (w_select k); [apply emits_ret | apply emits_raise].
Qed.

Lemma emits_self_client_sock : emits P self_client_sock.
Proof.
  intros w. exists []. split; [|constructor]. rewrite app_nil_r.
  unfold self_client_sock. now destruct (client_sock w).
Qed.

Lemma emits_assign_client_sock (v : option sock_id) :
  emits P (assign_client_sock v).
Proof. intros w. exists []. split; [|constructor]. cbn. now rewrite app_nil_r. Qed.

Lemma emits_for_range {A} (n : nat) (f : M A) :
  emits P f -> emits P (for_range n f).
Proof.
  intros Hf. induction n as [|n IH]; cbn.
  - apply emits_ret.
  - apply emits_bind; [assumption|]. intros x.
    apply emits_bind; [assumption|]. intros xs. apply emits_ret.
Qed.

End Emits.

Lemma emits_weaken {A} (P Q : event -> Prop) (c : M A) :
  (forall e, P e -> Q e) -> emits P c -> emits Q c.
Proof.
  intros HPQ Hc w. destruct (Hc w) as (evs & Hevs & HP).
  exists evs. split; [assumption|].
  eapply Forall_impl; eauto.
Qed.

Create HintDb py_emits.

#[local] Hint Resolve emits_ret emits_raise emits_recv emits_recv_exact
  emits_getsockname emits_struct_pack_H emits_unpack1 emits_unpack4
  emits_decode emits_int_16 emits_select emits_self_client_sock
  emits_assign_client_sock : py_emits.

(** Splits a goal [emits P c] along the syntax of [c]; what is left are the
    events of [c], to be shown in [P]. *)
Ltac emits_split :=
  repeat match goal with
  | |- emits _ (bind _ _) => apply emits_bind; [|intros]
  | |- emits _ (try_except _ _) =>
      apply emits_try_except; [|let e := fresh "e" in
                                let k := fresh "k" in
                                let H := fresh "H" in
                                intros e k H; cbn in H;
                                repeat match type of H with
                                | (if ?b then _ else _) = _ => destruct b
                                end;
                                try discriminate; inversion H; subst; clear H]
  | |- emits _ (try_finally _ _) => apply emits_try_finally
  | |- emits _ (for_range _ _) => apply emits_for_range
  | |- emits _ (if ?b then _ else _) => destruct b
  | |- emits _ (match ?x with _ => _ end) => destruct x
  | |- emits _ (send _ _) => apply emits_send
  | |- emits _ (sendall _ _) => apply emits_send
  | |- emits _ (close _) => apply emits_close
  | |- emits _ (L _) => apply emits_L
  | |- emits _ (E _) => apply emits_E
  | |- emits _ (emit _) => apply emits_emit
  | |- emits _ _ => solve [auto with py_emits]
  end.

(** ** The relay *)

Lemma closes_app (s : sock_id) (l1 l2 : list event) :
  closes s (l1 ++ l2) = (closes s l1 + closes s l2)%nat.
Proof.
  induction l1 as [|e l1 IH]; cbn; [reflexivity|].
  destruct e; auto. destruct (sock_id_eqb s s0); cbn; now rewrite IH.
Qed.

Lemma closes_not_close (s : sock_id) (l : list event) :
  Forall not_close l -> closes s l = 0%nat.
Proof.
  induction 1 as [|e l He _ IH]; cbn; [reflexivity|].
  destruct e; auto. discriminate He.
Qed.

Lemma relay_side_no_close (from to : sock_id) (r : list sock_id) (a : nat) :
  emits not_close (relay_side from to r a).
Proof. unfold relay_side. emits_split; reflexivity. Qed.

Lemma relay_loop_no_close (ssock csock : sock_id) (script : list wake) :
  emits not_close (relay_loop ssock csock script).
Proof.
  induction script as [|k script IH]; cbn.
  - apply (emits_pure not_close (fun _ => @Hang unit)).
  - apply emits_bind; [apply emits_select|]. intros r.
    apply emits_bind; [apply relay_side_no_close|]. intros [|]; [apply emits_ret|].
    apply emits_bind; [apply relay_side_no_close|]. intros [|]; [apply emits_ret|].
    exact IH.
Qed.

Lemma relay_cleanup_run (ssock csock : sock_id) (w : world) :
  exists w', relay_cleanup ssock csock w = (Val tt, w') /\
             trace w' = trace w ++ cleanup_events ssock csock.
Proof.
  eexists. split; [reflexivity|]. cbn. now rewrite <- !app_assoc.
Qed.

(** Whenever the loop of the relay ends, by [break] or by an exception, the
    relay returns, and what it appended to the trace ends with the four
    events of the cleanup; nothing was closed before them. *)
Lemma relay_after_loop (ssock csock : sock_id) (w : world) :
  fst (relay_loop ssock csock (relay_script w) w) <> Hang ->
  fst (relay ssock csock w) = Val tt /\
  exists pre,
    trace (snd (relay ssock csock w)) = trace w ++ pre ++ cleanup_events ssock csock /\
    Forall not_close pre.
Proof.
  intros Hloop. unfold relay, try_finally, try_except.
  destruct (relay_loop_no_close ssock csock (relay_script w) w) as (evs & Hevs & Hnc).
  destruct (relay_loop ssock csock (relay_script w) w) as [[[]|e|] w1];
    cbn in Hloop, Hevs; [| |congruence].
  - destruct (relay_cleanup_run ssock csock w1) as (w2 & Hrun & Htr).
    rewrite Hrun. cbn. split; [reflexivity|].
    exists evs. split; [|assumption]. now rewrite Htr, Hevs, app_assoc.
  - cbv beta iota delta [E emit].
    destruct (relay_cleanup_run ssock csock
                (add_event (EvLog Error MsgUnknownSocksError) w1))
      as (w2 & Hrun & Htr).
    rewrite Hrun. cbn. split; [reflexivity|].
    exists (evs ++ [EvLog Error MsgUnknownSocksError]). split.
    + rewrite Htr. cbn. rewrite Hevs. now rewrite <- !app_assoc.
    + apply Forall_app. split; [assumption|]. now repeat constructor.
Qed.

(** While the loop waits for ever, the relay does too and closes nothing. *)
Lemma relay_while_loop_hangs (ssock csock : sock_id) (w : world) :
  fst (relay_loop ssock csock (relay_script w) w) = Hang ->
  fst (relay ssock csock w) = Hang /\
  exists evs,
    trace (snd (relay ssock csock w)) = trace w ++ evs /\ Forall not_close evs.
Proof.
  intros Hloop. unfold relay, try_finally, try_except.
  destruct (relay_loop_no_close ssock csock (relay_script w) w) as (evs & Hevs & Hnc).
  destruct (relay_loop ssock csock (relay_script w) w) as [[[]|e|] w1];
    cbn in Hloop, Hevs; try discriminate.
  cbn. split; [reflexivity|]. now exists evs.
Qed.

(** The ways out of the loop: a read of length zero on either side, and an
    exception of [select], [recv] or [send]. *)
Lemma recv_at_end (s : sock_id) (n a : nat) (w : world) :
  rx (get_sock s w) = [] ->
  recv s n a w =
  (match rx_end (get_sock s w) with
   | EOF => Val []
   | Fault e => Raise e
   | Silent => Hang
   end, w).
Proof.
  intros Hrx. unfold recv. rewrite Hrx. now destruct (rx_end (get_sock s w)).
Qed.

Lemma relay_side_eof (from to : sock_id) (r : list sock_id) (a : nat) (w : world) :
  mem from r = true ->
  rx (get_sock from w) = [] -> rx_end (get_sock from w) = EOF ->
  relay_side from to r a w = (Val true, w).
Proof.
  intros Hmem Hrx Hend. unfold relay_side, bind.
  now rewrite Hmem, recv_at_end, Hend.
Qed.

Lemma relay_side_raises (from to : sock_id) (r : list sock_id) (a : nat)
    (w : world) (e : exn) :
  mem from r = true ->
  rx (get_sock from w) = [] -> rx_end (get_sock from w) = Fault e ->
  relay_side from to r a w = (Raise e, w).
Proof.
  intros Hmem Hrx Hend. unfold relay_side, bind.
  now rewrite Hmem, recv_at_end, Hend.
Qed.

Lemma relay_side_skip (from to : sock_id) (r : list sock_id) (a : nat) (w : world) :
  mem from r = false -> relay_side from to r a w = (Val false, w).
Proof. intros Hmem. unfold relay_side. now rewrite Hmem. Qed.

Lemma relay_loop_eof_tunnel (ssock csock : sock_id) (k : wake)
    (script : list wake) (w : world) (r : list sock_id) :
  w_select k = SelReady r -> mem ssock r = true ->
  rx (get_sock ssock w) = [] -> rx_end (get_sock ssock w) = EOF ->
  relay_loop ssock csock (k :: script) w = (Val tt, w).
Proof.
  intros Hsel Hmem Hrx Hend. cbn [relay_loop]. unfold bind at 1, select.
  rewrite Hsel. cbv beta iota delta [ret]. unfold bind at 1.
  now rewrite relay_side_eof.
Qed.

Lemma relay_loop_eof_client (ssock csock : sock_id) (k : wake)
    (script : list wake) (w : world) (r : list sock_id) :
  w_select k = SelReady r -> mem ssock r = false -> mem csock r = true ->
  rx (get_sock csock w) = [] -> rx_end (get_sock csock w) = EOF ->
  relay_loop ssock csock (k :: script) w = (Val tt, w).
Proof.
  intros Hsel Hmem Hmem' Hrx Hend. cbn [relay_loop]. unfold bind at 1, select.
  rewrite Hsel. cbv beta iota delta [ret]. unfold bind at 1.
  rewrite relay_side_skip by assumption. unfold bind at 1.
  now rewrite relay_side_eof.
Qed.

Lemma relay_loop_select_raises (ssock csock : sock_id) (k : wake)
    (script : list wake) (w : world) (e : exn) :
  w_select k = SelRaise e ->
  relay_loop ssock csock (k :: script) w = (Raise e, w).
Proof.
  intros Hsel. cbn [relay_loop]. unfold bind at 1, select. now rewrite Hsel.
Qed.

Lemma relay_loop_recv_raises (ssock csock : sock_id) (k : wake)
    (script : list wake) (w : world) (r : list sock_id) (e : exn) :
  w_select k = SelReady r -> mem ssock r = true ->
  rx (get_sock ssock w) = [] -> rx_end (get_sock ssock w) = Fault e ->
  relay_loop ssock csock (k :: script) w = (Raise e, w).
Proof.
  intros Hsel Hmem Hrx Hend. cbn [relay_loop]. unfold bind at 1, select.
  rewrite Hsel. cbv beta iota delta [ret]. unfold bind at 1.
  now rewrite relay_side_raises with (e := e) by assumption.
Qed.

(** C5: whenever the loop of the relay ends, whether by a read of length
    zero or by an exception, the relay returns after closing the tunnel
    socket and then the client socket, each exactly once. *)
Theorem relay_closes_each_once (w : world) :
  fst (relay_loop SSock CSock (relay_script w) w) <> Hang ->
  fst (relay SSock CSock w) = Val tt /\
  exists evs pre,
    trace (snd (relay SSock CSock w)) = trace w ++ evs /\
    evs = pre ++ [EvLog Info MsgClosingServer; EvClose SSock;
                  EvLog Info MsgClosingClient; EvClose CSock] /\
    Forall not_close pre /\
    closes SSock evs = 1%nat /\ closes CSock evs = 1%nat.
Proof.
  intros Hloop.
  destruct (relay_after_loop SSock CSock w Hloop) as (Hret & pre & Htr & Hnc).
  split; [assumption|].
  exists (pre ++ cleanup_events SSock CSock), pre.
  repeat split; try assumption.
  - rewrite closes_app, (closes_not_close SSock Hnc). reflexivity.
  - rewrite closes_app, (closes_not_close CSock Hnc). reflexivity.
Qed.

Lemma relay_closes_each_once_witness :
  fst (relay SSock CSock (client_world [] [client_readable])) = Val tt /\
  exists evs pre,
    trace (snd (relay SSock CSock (client_world [] [client_readable]))) =
    trace (client_world [] [client_readable]) ++ evs /\
    evs = pre ++ [EvLog Info MsgClosingServer; EvClose SSock;
                  EvLog Info MsgClosingClient; EvClose CSock] /\
    Forall not_close pre /\
    closes SSock evs = 1%nat /\ closes CSock evs = 1%nat.
Proof.
  apply (relay_closes_each_once (client_world [] [client_readable])).
  vm_compute. discriminate.
Defined.

(** ** Decimal, hexadecimal and UTF-8 *)

Lemma py_str_byte (b : byte) : py_str (Byte.to_N b) = decimal_of_byte b.
Proof. destruct b; reflexivity. Qed.

Lemma digit16_hex_digit (d : N) : (d < 16)%N -> digit16 (hex_digit d) = Some d.
Proof.
  intros Hd. unfold digit16, hex_digit.
  destruct (N.ltb_spec d 10).
  - replace ((48 <=? 48 + d) && (48 + d <=? 57))%N with true.
    + f_equal. lia.
    + symmetry. apply andb_true_intro. split; apply N.leb_le; lia.
  - replace ((48 <=? 87 + d) && (87 + d <=? 57))%N with false.
    + replace ((97 <=? 87 + d) && (87 + d <=? 102))%N with true.
      * f_equal. lia.
      * symmetry. apply andb_true_intro. split; apply N.leb_le; lia.
    + symmetry. apply andb_false_intro2. apply N.leb_gt. lia.
Qed.

Lemma int16_digits_hex_byte (acc : N) (b : byte) (s : pystr) :
  int16_digits acc (hex [b] ++ s) = int16_digits (256 * acc + Byte.to_N b) s.
Proof.
  pose proof (to_N_lt_256 b) as Hb.
  cbn [hex flat_map app int16_digits].
  rewrite !digit16_hex_digit.
  - f_equal. pose proof (N.div_mod (Byte.to_N b) 16). lia.
  - apply N.mod_lt. lia.
  - apply N.Div0.div_lt_upper_bound. lia.
Qed.

Lemma int16_hex_port (hi lo : byte) :
  int16 (hex [hi; lo]) = Some (big_endian16 hi lo).
Proof.
  change (hex [hi; lo]) with (hex [hi] ++ hex [lo] ++ []).
  unfold int16. destruct (hex [hi] ++ hex [lo] ++ []) eqn:Hh; [discriminate Hh|].
  rewrite <- Hh, !int16_digits_hex_byte. cbn [int16_digits].
  unfold big_endian16. f_equal; lia.
Qed.

Lemma utf8_decode_ascii (buf : list byte) :
  Forall (fun b => (Byte.to_N b < 128)%N) buf ->
  utf8_decode buf = Some (ints buf).
Proof.
  induction 1 as [|b buf Hb _ IH]; [reflexivity|].
  cbn [utf8_decode ints map].
  apply N.ltb_lt in Hb. rewrite Hb. fold (ints buf). now rewrite IH.
Qed.

Lemma ints_encode (dom : pystr) :
  Forall (fun c => (c < 256)%N) dom -> ints (map byte_of_N dom) = dom.
Proof.
  induction 1 as [|c dom Hc _ IH]; [reflexivity|].
  cbn. rewrite to_N_byte_of_N by assumption. f_equal. exact IH.
Qed.

Lemma utf8_decode_printable (dom : pystr) :
  Forall printable_ascii dom -> utf8_decode (map byte_of_N dom) = Some dom.
Proof.
  intros Hdom.
  assert (H256 : Forall (fun c => (c < 256)%N) dom)
    by (eapply Forall_impl; [|exact Hdom]; unfold printable_ascii; cbn; lia).
  rewrite utf8_decode_ascii.
  - now rewrite ints_encode.
  - induction Hdom as [|c dom Hc _ IH]; constructor.
    + rewrite to_N_byte_of_N; unfold printable_ascii in Hc; lia.
    + apply IH. now inversion H256.
Qed.

(** ** The negotiation, phase by phase *)

(* The calls below are rewritten with their lemmas, not unfolded. *)
#[local] Arguments recv_exact : simpl never.
#[local] Arguments send : simpl never.
#[local] Arguments Socks5_error : simpl never.
#[local] Arguments py_str : simpl never.
#[local] Arguments hex : simpl never.
#[local] Arguments int16 : simpl never.
#[local] Arguments utf8_decode : simpl never.
#[local] Arguments advance : simpl never.
#[local] Arguments run_address : simpl never.
#[local] Arguments for_range : simpl never.

Ltac norm_world :=
  unfold advance, add_event, set_client_sock, set_tx_faults, set_rx, set_sock, ret;
  cbn.

Lemma guard_passes (ver cmd : byte) :
  passes_guard ver cmd ->
  negb (Byte.to_N ver =? 5)%N && negb (Byte.to_N cmd =? 1)%N = false.
Proof.
  intros [-> | ->]; cbn; [reflexivity | apply andb_false_r].
Qed.

Lemma run_greeting_ok (w : world) (nmeth : byte) (methods rest : list byte) :
  rx (csock w) = x05 :: nmeth :: methods ++ rest ->
  List.length methods = N.to_nat (Byte.to_N nmeth) ->
  sends_ok 1 (tx_faults (csock w)) = true ->
  run_greeting CSock w = (Val true, advance w rest 1 [EvSend CSock [x05; x00]]).
Proof.
  intros Hrx Hlen Htx.
  destruct w as [[r e f p] k c cs ck sx sc t]. cbn in Hrx, Htx. subst r.
  unfold run_greeting, bind. cbn.
  rewrite recv_exact_app with (bs := methods) (rest := rest) by (cbn; auto).
  rewrite send_ok by exact Htx.
  norm_world. reflexivity.
Qed.

Lemma run_greeting_bad_version (w : world) (b : byte) (rest : list byte) :
  client_sock w = Some CSock ->
  rx (csock w) = b :: rest ->
  b <> x05 ->
  sends_ok 1 (tx_faults (csock w)) = true ->
  run_greeting CSock w =
  (Val false,
   set_client_sock None (advance w rest 1 [EvSend CSock [x05; xff]; EvClose CSock])).
Proof.
  intros Hcs Hrx Hb Htx.
  destruct w as [[r e f p] k c cs ck sx sc t]. cbn in Hcs, Hrx, Htx. subst r c.
  unfold run_greeting, bind. cbn.
  rewrite (byte_neq_eqb Hb). cbn.
  rewrite Socks5_error_sent with (s := CSock) by (cbn; auto).
  norm_world. rewrite <- app_assoc. reflexivity.
Qed.

Lemma run_request_ipv4 (w : world) (ver cmd rsv a b c d hi lo : byte)
    (rest : list byte) :
  rx (csock w) = [ver; cmd; rsv; x01; a; b; c; d; hi; lo] ++ rest ->
  passes_guard ver cmd ->
  run_request CSock w =
  (Val (Some (dotted_decimal a b c d, big_endian16 hi lo)), advance w rest 0 []).
Proof.
  intros Hrx Hg.
  destruct w as [[r e f p] k cf cs ck sx sc t]. cbn in Hrx. subst r.
  unfold run_request, bind.
  rewrite recv_exact_app with (bs := [ver; cmd; rsv; x01])
                              (rest := [a; b; c; d; hi; lo] ++ rest) by reflexivity.
  cbn. rewrite (guard_passes Hg).
  unfold run_address, bind. cbn.
  rewrite recv_exact_app with (bs := [a; b; c; d]) (rest := [hi; lo] ++ rest)
    by reflexivity.
  cbn.
  rewrite recv_exact_app with (bs := [hi; lo]) (rest := rest) by reflexivity.
  unfold int_16. rewrite int16_hex_port. cbn.
  rewrite !py_str_byte. norm_world. rewrite app_nil_r.
  unfold dotted_decimal. reflexivity.
Qed.

Lemma run_address_domain (w : world) (len : byte) (name rest : list byte) :
  rx (csock w) = len :: name ++ rest ->
  List.length name = N.to_nat (Byte.to_N len) ->
  run_address CSock 3 w =
  (match utf8_decode name with
   | Some dest => Val (Some dest)
   | None => Raise UnicodeDecodeError
   end, advance w rest 0 []).
Proof.
  intros Hrx Hlen.
  destruct w as [[r e f p] k cf cs ck sx sc t]. cbn in Hrx. subst r.
  unfold run_address, bind. cbn.
  rewrite recv_exact_app with (bs := name) (rest := rest) by (cbn; auto).
  unfold decode. norm_world. rewrite app_nil_r.
  destruct (utf8_decode name); reflexivity.
Qed.

Lemma run_request_domain (w : world) (ver cmd rsv len hi lo : byte)
    (name rest : list byte) (dest : pystr) :
  rx (csock w) = [ver; cmd; rsv; x03; len] ++ name ++ [hi; lo] ++ rest ->
  List.length name = N.to_nat (Byte.to_N len) ->
  passes_guard ver cmd ->
  utf8_decode name = Some dest ->
  run_request CSock w =
  (Val (Some (dest, big_endian16 hi lo)), advance w rest 0 []).
Proof.
  intros Hrx Hlen Hg Hdec.
  unfold run_request, bind.
  rewrite recv_exact_app with (bs := [ver; cmd; rsv; x03])
                              (rest := len :: name ++ [hi; lo] ++ rest)
    by (exact Hrx || reflexivity).
  cbn. rewrite (guard_passes Hg). cbn.
  rewrite run_address_domain with (len := len) (name := name) (rest := [hi; lo] ++ rest)
    by (cbn; auto).
  rewrite Hdec.
  rewrite recv_exact_app with (bs := [hi; lo]) (rest := rest) by reflexivity.
  unfold int_16. rewrite int16_hex_port.
  destruct w as [[r e f p] k cf cs ck sx sc t].
  norm_world. now rewrite !app_nil_r.
Qed.

Lemma for_range_recv_groups (w : world) (addr rest : list byte) :
  rx (csock w) = addr ++ rest ->
  List.length addr = 16%nat ->
  exists groups,
    for_range 8 (buf <- recv_exact CSock 2 ;; ret (hex buf)) w =
    (Val groups, advance w rest 0 []).
Proof.
  intros Hrx Hlen.
  do 17 (destruct addr as [|? addr]; try discriminate Hlen).
  destruct w as [[r e f p] k cf cs ck sx sc t]. cbn in Hrx. subst r.
  eexists. cbn [for_range]. unfold bind.
  repeat (erewrite recv_exact_app by
            (cbn; match goal with
                  | |- ?a :: ?b :: ?l = _ => change (a :: b :: l) with ([a; b] ++ l)
                  end; reflexivity || reflexivity); cbn).
  norm_world. rewrite app_nil_r. reflexivity.
Qed.

Lemma run_address_ipv6 (w : world) (addr rest : list byte) :
  client_sock w = Some CSock ->
  rx (csock w) = addr ++ rest ->
  List.length addr = 16%nat ->
  sends_ok 1 (tx_faults (csock w)) = true ->
  run_address CSock 4 w =
  (Val None,
   set_client_sock None
     (advance w rest 1 [EvSend CSock [x05; x01; x00]; EvClose CSock])).
Proof.
  intros Hcs Hrx Hlen Htx.
  unfold run_address. cbn. unfold bind at 1.
  destruct (for_range_recv_groups w addr rest Hrx Hlen) as (groups & Hgroups).
  rewrite Hgroups. unfold bind.
  rewrite Socks5_error_sent with (s := CSock) by (cbn; auto).
  destruct w as [[r e f p] k cf cs ck sx sc t]. cbn in Hcs. subst cf.
  norm_world. rewrite <- !app_assoc. reflexivity.
Qed.

Lemma run_request_ipv6 (w : world) (ver cmd rsv : byte) (addr rest : list byte) :
  client_sock w = Some CSock ->
  rx (csock w) = [ver; cmd; rsv; x04] ++ addr ++ rest ->
  List.length addr = 16%nat ->
  passes_guard ver cmd ->
  sends_ok 1 (tx_faults (csock w)) = true ->
  run_request CSock w =
  (Val None,
   set_client_sock None
     (advance w rest 1 [EvSend CSock [x05; x01; x00]; EvClose CSock])).
Proof.
  intros Hcs Hrx Hlen Hg Htx.
  unfold run_request, bind.
  rewrite recv_exact_app with (bs := [ver; cmd; rsv; x04]) (rest := addr ++ rest)
    by (exact Hrx || reflexivity).
  cbn. rewrite (guard_passes Hg). cbn.
  rewrite run_address_ipv6 with (addr := addr) (rest := rest)
    by (destruct w as [[r e f p] k cf cs ck sx sc t]; cbn in *; auto).
  destruct w as [[r e f p] k cf cs ck sx sc t].
  norm_world. reflexivity.
Qed.


(** ** Every part of the program only appends to the trace *)

Lemma emits_Socks5_error (err : list byte) : emits any_event (Socks5_error err).
Proof. unfold Socks5_error. emits_split; exact I. Qed.

Lemma emits_run_greeting (s : sock_id) : emits any_event (run_greeting s).
Proof.
  unfold run_greeting. emits_split; try exact I; apply emits_Socks5_error.
Qed.

Lemma emits_run_address (s : sock_id) (atyp : N) : emits any_event (run_address s atyp).
Proof.
  unfold run_address. emits_split; try exact I; apply emits_Socks5_error.
Qed.

Lemma emits_run_request (s : sock_id) : emits any_event (run_request s).
Proof.
  unfold run_request. emits_split; try exact I;
    first [apply emits_Socks5_error | apply emits_run_address].
Qed.

Lemma emits_relay (ssock csock : sock_id) : emits any_event (relay ssock csock).
Proof.
  unfold relay, relay_cleanup. emits_split; try exact I.
  apply emits_weaken with (P := not_close); [intros; exact I|].
  intros w. apply relay_loop_no_close.
Qed.

Lemma emits_SocksProxy_run (ssock csock : sock_id) :
  emits any_event (SocksProxy_run ssock csock).
Proof.
  unfold SocksProxy_run. emits_split; try exact I. apply emits_relay.
Qed.

Lemma emits_circuit_create_stream (dest : pystr) (port : N) :
  emits any_event (circuit_create_stream dest port).
Proof.
  unfold circuit_create_stream. emits_split; [exact I|].
  intros w. exists []. rewrite app_nil_r.
  split; [|constructor]. now destruct (create_stream_exn w dest port).
Qed.

Lemma emits_tor_stream_exit : emits any_event tor_stream_exit.
Proof.
  unfold tor_stream_exit. emits_split; [exact I|].
  intros w. exists []. rewrite app_nil_r.
  split; [|constructor]. now destruct (stream_exit_exn w).
Qed.

Lemma emits_tor_stream_create_socket : emits any_event tor_stream_create_socket.
Proof.
  unfold tor_stream_create_socket. emits_split; [exact I|].
  intros w. exists []. rewrite app_nil_r.
  split; [|constructor]. now destruct (create_socket_exn w).
Qed.

Lemma emits_run_connect (csock : sock_id) (dest : pystr) (port : N) :
  emits any_event (run_connect csock dest port).
Proof.
  unfold run_connect, Socks5_create_socket, with_create_stream, py_exit.
  emits_split; try exact I;
    first [apply emits_circuit_create_stream | apply emits_tor_stream_exit
          | apply emits_tor_stream_create_socket | apply emits_SocksProxy_run].
Qed.

Lemma emits_run_except (csock : sock_id) (e : exn) (k : M unit) :
  run_except csock e = Some k -> emits any_event k.
Proof.
  unfold run_except. destruct (is_Exception e); [|discriminate].
  intros H. inversion H. emits_split; exact I.
Qed.

(** ** The first events of a run *)

Lemma starts_of_emits {A} (c : M A) (w : world) :
  emits any_event c -> starts_with [] c w.
Proof. intros Hc. destruct (Hc w) as (evs & Hevs & _). now exists evs. Qed.

Lemma starts_with_ext {A} (c c' : M A) (w : world) (pre : list event) :
  c w = c' w -> starts_with pre c' w -> starts_with pre c w.
Proof. intros Heq (evs & Hevs). exists evs. now rewrite Heq. Qed.

Lemma starts_bind_val {A B} (c : M A) (k : A -> M B) (w w1 : world) (a : A)
    (pre pre' : list event) :
  c w = (Val a, w1) ->
  trace w1 = trace w ++ pre ->
  starts_with pre' (k a) w1 ->
  starts_with (pre ++ pre') (bind c k) w.
Proof.
  intros Hc Htr (evs & Hevs). exists evs. unfold bind. rewrite Hc, Hevs, Htr.
  now rewrite <- !app_assoc.
Qed.

Lemma starts_bind_emits {A B} (c : M A) (k : A -> M B) (w : world)
    (pre : list event) :
  starts_with pre c w ->
  (forall a, emits any_event (k a)) ->
  starts_with pre (bind c k) w.
Proof.
  intros (evs & Hevs) Hk. unfold starts_with, bind.
  destruct (c w) as [[a|e|] w1]; cbn in *; try (now exists evs).
  destruct (Hk a w1) as (evs' & Hevs' & _).
  exists (evs ++ evs'). rewrite Hevs', Hevs. now rewrite <- !app_assoc.
Qed.

Lemma starts_try_except {A} (c : M A) (h : exn -> option (M A)) (w : world)
    (pre : list event) :
  starts_with pre c w ->
  (forall e k, h e = Some k -> emits any_event k) ->
  starts_with pre (try_except c h) w.
Proof.
  intros (evs & Hevs) Hh. unfold starts_with, try_except.
  destruct (c w) as [[a|e|] w1]; cbn in *; try (now exists evs).
  destruct (h e) as [k|] eqn:Hk; [|now exists evs].
  destruct (Hh e k Hk w1) as (evs' & Hevs' & _).
  exists (evs ++ evs'). rewrite Hevs', Hevs. now rewrite <- !app_assoc.
Qed.

Lemma starts_try_finally {A} (c : M A) (f : M unit) (w : world)
    (pre : list event) :
  starts_with pre c w ->
  emits any_event f ->
  starts_with pre (try_finally c f) w.
Proof.
  intros (evs & Hevs) Hf. unfold starts_with, try_finally.
  destruct (c w) as [[a|e|] w1]; cbn in *; try (now exists evs);
    destruct (Hf w1) as (evs' & Hevs' & _);
    exists (evs ++ evs');
    destruct (f w1) as [[[]|e'|] w2]; cbn in *;
    rewrite Hevs', Hevs; now rewrite <- !app_assoc.
Qed.

(** ** [Socks5.run] as a whole *)

Lemma Socks5_handshake_after_greeting (w w1 : world) :
  run_greeting CSock w = (Val true, w1) ->
  Socks5_handshake CSock w = run_request CSock w1.
Proof. intros H. unfold Socks5_handshake, bind. now rewrite H. Qed.

Lemma Socks5_handshake_refused (w w1 : world) :
  run_greeting CSock w = (Val false, w1) ->
  Socks5_handshake CSock w = (Val None, w1).
Proof. intros H. unfold Socks5_handshake, bind. now rewrite H. Qed.

Lemma Socks5_run_returns_early (w w1 : world) :
  client_sock w = Some CSock ->
  Socks5_handshake CSock w = (Val None, w1) ->
  Socks5_run w = (Val tt, w1).
Proof.
  intros Hcs Hhs. unfold Socks5_run, try_except, bind. now rewrite Hcs, Hhs.
Qed.

Lemma Socks5_run_connects (w w1 : world) (dest : pystr) (port : N) :
  client_sock w = Some CSock ->
  Socks5_handshake CSock w = (Val (Some (dest, port)), w1) ->
  Socks5_run w = try_except (run_connect CSock dest port) (run_except CSock) w1.
Proof.
  intros Hcs Hhs. unfold Socks5_run, try_except, bind. now rewrite Hcs, Hhs.
Qed.

Lemma Socks5_run_unfold (w : world) :
  client_sock w = Some CSock ->
  Socks5_run w =
  try_except
    (r <- Socks5_handshake CSock ;;
     match r with
     | None => ret tt
     | Some (dest, port) => run_connect CSock dest port
     end)
    (run_except CSock) w.
Proof. intros Hcs. unfold Socks5_run. now rewrite Hcs. Qed.

Lemma sends_ok_skipn_1 (n : nat) (fs : list (option exn)) :
  sends_ok (S n) fs = true -> sends_ok n (skipn 1 fs) = true.
Proof. exact (@sends_ok_tl n fs). Qed.

(** C8: after a greeting that announces [nmeth] methods, exactly that many
    further bytes are read, whatever they are, and the two bytes [05 00]
    are sent; they are the first thing [run] sends. *)
Theorem greeting_reads_methods_then_replies (w : world) (nmeth : byte)
    (methods rest : list byte) :
  client_sock w = Some CSock ->
  rx (csock w) = x05 :: nmeth :: methods ++ rest ->
  List.length methods = N.to_nat (Byte.to_N nmeth) ->
  sends_ok 1 (tx_faults (csock w)) = true ->
  (exists w',
      run_greeting CSock w = (Val true, w') /\
      rx (csock w') = rest /\
      trace w' = trace w ++ [EvSend CSock [x05; x00]]) /\
  starts_with [EvSend CSock [x05; x00]] Socks5_run w.
Proof.
  intros Hcs Hrx Hlen Htx.
  pose proof (@run_greeting_ok w nmeth methods rest Hrx Hlen Htx) as Hg.
  split.
  - eexists. split; [exact Hg|]. split; reflexivity.
  - eapply starts_with_ext; [apply Socks5_run_unfold; assumption|].
    apply starts_try_except; [|apply emits_run_except].
    apply starts_bind_emits.
    + unfold Socks5_handshake.
      rewrite <- (app_nil_r [EvSend CSock [x05; x00]]).
      eapply starts_bind_val; [exact Hg | reflexivity |].
      apply starts_of_emits, emits_run_request.
    + intros [[dest port]|]; [apply emits_run_connect | apply emits_ret].
Qed.

Lemma greeting_reads_methods_then_replies_witness :
  (exists w',
      run_greeting CSock (client_world [x05; x02; x00; x01; x09] []) = (Val true, w') /\
      rx (csock w') = [x09] /\
      trace w' = [] ++ [EvSend CSock [x05; x00]]) /\
  starts_with [EvSend CSock [x05; x00]] Socks5_run
    (client_world [x05; x02; x00; x01; x09] []).
Proof.
  apply (@greeting_reads_methods_then_replies
           (client_world [x05; x02; x00; x01; x09] []) x02 [x00; x01] [x09]);
    reflexivity.
Defined.

(** C4, as the code has it: a connection whose first byte is not [05] is
    answered with the two bytes [05 FF] and closed, provided the send does
    not raise. *)
Theorem bad_version_reply (w : world) (b : byte) (rest : list byte) :
  client_sock w = Some CSock ->
  rx (csock w) = b :: rest ->
  b <> x05 ->
  sends_ok 1 (tx_faults (csock w)) = true ->
  fst (Socks5_run w) = Val tt /\
  trace (snd (Socks5_run w)) = trace w ++ [EvSend CSock [x05; xff]; EvClose CSock] /\
  rx (csock (snd (Socks5_run w))) = rest.
Proof.
  intros Hcs Hrx Hb Htx.
  pose proof (@run_greeting_bad_version w b rest Hcs Hrx Hb Htx) as Hg.
  apply Socks5_handshake_refused in Hg.
  apply Socks5_run_returns_early in Hg; [|assumption].
  rewrite Hg. repeat split.
Qed.

Lemma bad_version_reply_witness :
  fst (Socks5_run (client_world [x04; x01] [])) = Val tt /\
  trace (snd (Socks5_run (client_world [x04; x01] []))) =
  trace (client_world [x04; x01] []) ++ [EvSend CSock [x05; xff]; EvClose CSock] /\
  rx (csock (snd (Socks5_run (client_world [x04; x01] [])))) = [x01].
Proof.
  apply (@bad_version_reply (client_world [x04; x01] []) x04 [x01]);
    [reflexivity | reflexivity | discriminate | reflexivity].
Defined.

(** C4 as stated fails: the client of [client_world [x04; x01] []], whose
    first byte is [04], receives the two bytes [05 FF], not the single byte
    [FF]. *)
Lemma bad_version_reply_not_bare_ff :
  hd_error (rx (csock (client_world [x04; x01] []))) = Some x04 /\
  x04 <> x05 /\
  sent_bytes CSock (trace (snd (Socks5_run (client_world [x04; x01] [])))) <> [xff].
Proof. repeat split; discriminate. Qed.

(** C6: a request with address type 4 has its sixteen address bytes read,
    whatever they are, and is then refused with the reply [05 01 00]; the
    socket is closed and [create_stream] is not called. *)
Theorem ipv6_request_rejected (w : world) (nmeth ver cmd rsv : byte)
    (methods addr rest : list byte) :
  client_sock w = Some CSock ->
  rx (csock w) = x05 :: nmeth :: methods ++ [ver; cmd; rsv; x04] ++ addr ++ rest ->
  List.length methods = N.to_nat (Byte.to_N nmeth) ->
  List.length addr = 16%nat ->
  passes_guard ver cmd ->
  sends_ok 2 (tx_faults (csock w)) = true ->
  fst (Socks5_run w) = Val tt /\
  rx (csock (snd (Socks5_run w))) = rest /\
  exists evs,
    trace (snd (Socks5_run w)) = trace w ++ evs /\
    evs = [EvSend CSock [x05; x00]; EvSend CSock [x05; x01; x00]; EvClose CSock] /\
    existsb is_create_stream evs = false.
Proof.
  intros Hcs Hrx Hlen Hlen' Hg Htx.
  pose proof (@run_greeting_ok w nmeth methods _ Hrx Hlen (sends_ok_one _ _ Htx))
    as Hgreet.
  apply Socks5_handshake_after_greeting in Hgreet.
  rewrite (@run_request_ipv6 _ ver cmd rsv addr rest) in Hgreet;
    [ | exact Hcs | reflexivity | assumption | assumption
      | apply sends_ok_skipn_1; exact Htx ].
  apply Socks5_run_returns_early in Hgreet; [|assumption].
  rewrite Hgreet. split; [reflexivity|]. split; [reflexivity|].
  eexists. split; [|split; reflexivity].
  unfold advance. cbn. now rewrite <- app_assoc.
Qed.

Lemma ipv6_request_rejected_witness :
  fst (Socks5_run (client_world
         (greeting_noauth ++ [x05; x01; x00; x04] ++ repeat xfe 16 ++ [x00; x50]) []))
  = Val tt /\
  rx (csock (snd (Socks5_run (client_world
         (greeting_noauth ++ [x05; x01; x00; x04] ++ repeat xfe 16 ++ [x00; x50]) []))))
  = [x00; x50] /\
  exists evs,
    trace (snd (Socks5_run (client_world
         (greeting_noauth ++ [x05; x01; x00; x04] ++ repeat xfe 16 ++ [x00; x50]) [])))
    = trace (client_world
         (greeting_noauth ++ [x05; x01; x00; x04] ++ repeat xfe 16 ++ [x00; x50]) [])
      ++ evs /\
    evs = [EvSend CSock [x05; x00]; EvSend CSock [x05; x01; x00]; EvClose CSock] /\
    existsb is_create_stream evs = false.
Proof.
  apply (@ipv6_request_rejected
           (client_world
              (greeting_noauth ++ [x05; x01; x00; x04] ++ repeat xfe 16 ++ [x00; x50]) [])
           x01 x05 x01 x00 [x00] (repeat xfe 16) [x00; x50]);
    [reflexivity | reflexivity | reflexivity | reflexivity
    | left; reflexivity | reflexivity].
Defined.





(** ** The reply of [SocksProxy.run] *)

Lemma pack_big_endian (port : N) :
  (port < 65536)%N ->
  big_endian16 (byte_of_N (port / 256)) (byte_of_N (port mod 256)) = port.
Proof.
  intros Hp. unfold big_endian16.
  rewrite !to_N_byte_of_N.
  - pose proof (N.div_mod port 256). lia.
  - apply N.mod_lt. lia.
  - apply N.Div0.div_lt_upper_bound. lia.
Qed.

Lemma SocksProxy_run_starts_with_reply (ssock : sock_id) (w : world) :
  (sockname_port (csock w) < 65536)%N ->
  sends_ok 1 (tx_faults (csock w)) = true ->
  starts_with
    [EvSend CSock
       (success_reply_head
        ++ [byte_of_N (sockname_port (csock w) / 256);
            byte_of_N (sockname_port (csock w) mod 256)])]
    (SocksProxy_run ssock CSock) w.
Proof.
  intros Hp Htx.
  unfold starts_with, SocksProxy_run, bind, getsockname, struct_pack_H, sendall.
  cbn [get_sock]. apply N.ltb_lt in Hp. rewrite Hp. cbn [ret].
  rewrite send_ok by exact Htx.
  match goal with
  | |- context [relay ssock CSock ?w2] =>
      destruct (emits_relay ssock CSock w2) as (evs & Hevs & _)
  end.
  exists evs. rewrite Hevs.
  destruct w as [[r e f p] k cf cs ck sx sc t]. norm_world.
  now rewrite <- app_assoc.
Qed.

Lemma SocksProxy_run_relays (ssock : sock_id) (w : world) :
  (sockname_port (csock w) < 65536)%N ->
  sends_ok 1 (tx_faults (csock w)) = true ->
  exists w2 reply,
    SocksProxy_run ssock CSock w = relay ssock CSock w2 /\
    trace w2 = trace w ++ [EvSend CSock reply].
Proof.
  intros Hp Htx.
  unfold SocksProxy_run, bind, getsockname, struct_pack_H, sendall.
  cbn [get_sock]. apply N.ltb_lt in Hp. rewrite Hp. cbn [ret].
  rewrite send_ok by exact Htx.
  eexists. eexists. split; [reflexivity|].
  destruct w as [[r e f p] k cf cs ck sx sc t]. reflexivity.
Qed.

(** All of [SocksProxy.run]: once the reply is sent, a run that returns has
    closed each of the two sockets exactly once. *)
Lemma SocksProxy_run_closes_each_once (w : world) :
  (sockname_port (csock w) < 65536)%N ->
  sends_ok 1 (tx_faults (csock w)) = true ->
  fst (SocksProxy_run SSock CSock w) <> Hang ->
  fst (SocksProxy_run SSock CSock w) = Val tt /\
  exists evs,
    trace (snd (SocksProxy_run SSock CSock w)) = trace w ++ evs /\
    closes SSock evs = 1%nat /\ closes CSock evs = 1%nat.
Proof.
  intros Hp Htx Hret.
  destruct (SocksProxy_run_relays SSock w Hp Htx) as (w2 & reply & Hrun & Htr).
  rewrite Hrun in *.
  assert (Hloop : fst (relay_loop SSock CSock (relay_script w2) w2) <> Hang).
  { intros Hhang. apply Hret. now apply relay_while_loop_hangs. }
  destruct (relay_after_loop SSock CSock w2 Hloop) as (Hval & pre & Hpre & Hnc).
  split; [assumption|].
  exists ([EvSend CSock reply] ++ pre ++ cleanup_events SSock CSock). split.
  - rewrite Hpre, Htr. now rewrite <- !app_assoc.
  - rewrite !closes_app, (closes_not_close SSock Hnc), (closes_not_close CSock Hnc).
    split; reflexivity.
Qed.

Lemma emits_broken_pipe_handler (e : exn) (k : M unit) :
  (if is_BrokenPipeError e then Some (E MsgTorCrashed ;; py_exit) else None)
  = Some k ->
  emits any_event k.
Proof.
  destruct (is_BrokenPipeError e); [|discriminate].
  intros H. inversion H. unfold py_exit. emits_split; exact I.
Qed.

Lemma run_connect_starts_with_reply (w : world) (dest : pystr) (port : N) :
  create_stream_exn w dest port = None ->
  create_socket_exn w = None ->
  (sockname_port (csock w) < 65536)%N ->
  sends_ok 1 (tx_faults (csock w)) = true ->
  starts_with
    [EvLog Info (MsgConnecting dest port); EvCreateStream dest port; EvCreateSocket;
     EvSend CSock
       (success_reply_head
        ++ [byte_of_N (sockname_port (csock w) / 256);
            byte_of_N (sockname_port (csock w) mod 256)])]
    (run_connect CSock dest port) w.
Proof.
  intros Hstream Hsock Hp Htx.
  unfold run_connect.
  apply starts_try_except; [|exact emits_broken_pipe_handler].
  unfold Socks5_create_socket, with_create_stream.
  eapply (@starts_bind_val _ _ _ _ w (add_event (EvLog Info (MsgConnecting dest port)) w)
            tt [EvLog Info (MsgConnecting dest port)]);
    [reflexivity | reflexivity |].
  eapply (@starts_bind_val _ _ _ _ _
            (add_event (EvCreateStream dest port)
               (add_event (EvLog Info (MsgConnecting dest port)) w))
            tt [EvCreateStream dest port]);
    [ unfold circuit_create_stream, bind, emit; cbn; now rewrite Hstream
    | reflexivity |].
  apply starts_try_finally; [|exact emits_tor_stream_exit].
  eapply (@starts_bind_val _ _ _ _ _
            (add_event EvCreateSocket
               (add_event (EvCreateStream dest port)
                  (add_event (EvLog Info (MsgConnecting dest port)) w)))
            SSock [EvCreateSocket]);
    [ unfold tor_stream_create_socket, bind, emit; cbn; now rewrite Hsock
    | reflexivity |].
  apply starts_bind_emits.
  - apply (@SocksProxy_run_starts_with_reply SSock
             (add_event EvCreateSocket
                (add_event (EvCreateStream dest port)
                   (add_event (EvLog Info (MsgConnecting dest port)) w))));
      assumption.
  - intros a. emits_split; exact I.
Qed.

(** C3, as the code has it: after a successful negotiation and stream
    acquisition the first thing sent to the client is the ten bytes
    [05 00 00 01 7F 00 00 01] followed by the port of [getsockname()] in
    big-endian order. *)
Theorem success_reply_bytes (w w1 : world) (dest : pystr) (port : N) :
  client_sock w = Some CSock ->
  Socks5_handshake CSock w = (Val (Some (dest, port)), w1) ->
  create_stream_exn w1 dest port = None ->
  create_socket_exn w1 = None ->
  (sockname_port (csock w1) < 65536)%N ->
  sends_ok 1 (tx_faults (csock w1)) = true ->
  exists hi lo evs,
    big_endian16 hi lo = sockname_port (csock w1) /\
    trace (snd (Socks5_run w)) =
    trace w1
    ++ [EvLog Info (MsgConnecting dest port); EvCreateStream dest port;
        EvCreateSocket;
        EvSend CSock [x05; x00; x00; x01; x7f; x00; x00; x01; hi; lo]]
    ++ evs.
Proof.
  intros Hcs Hhs Hstream Hsock Hp Htx.
  rewrite (Socks5_run_connects w Hcs Hhs).
  destruct (@starts_try_except _ (run_connect CSock dest port) (run_except CSock)
              w1 _ (run_connect_starts_with_reply w1 dest port Hstream Hsock Hp Htx)
              (emits_run_except CSock))
    as (evs & Hevs).
  exists (byte_of_N (sockname_port (csock w1) / 256)),
         (byte_of_N (sockname_port (csock w1) mod 256)), evs.
  split; [now apply pack_big_endian | exact Hevs].
Qed.

Lemma success_reply_bytes_witness :
  exists hi lo evs,
    big_endian16 hi lo = 1050%N /\
    trace (snd (Socks5_run (client_world (greeting_noauth ++ connect_localhost_80)
                              [client_readable]))) =
    [EvSend CSock [x05; x00]]
    ++ [EvLog Info (MsgConnecting (str_of_string "127.0.0.1") 80);
        EvCreateStream (str_of_string "127.0.0.1") 80;
        EvCreateSocket;
        EvSend CSock [x05; x00; x00; x01; x7f; x00; x00; x01; hi; lo]]
    ++ evs.
Proof.
  apply (@success_reply_bytes
           (client_world (greeting_noauth ++ connect_localhost_80) [client_readable])
           (snd (Socks5_handshake CSock
                   (client_world (greeting_noauth ++ connect_localhost_80)
                      [client_readable])))
           (str_of_string "127.0.0.1") 80%N);
    reflexivity.
Defined.

(** C3 as stated fails: in scenario 1 the client, whose socket reports the
    port 1050 = [04 1A], is sent [05 00] and then
    [05 00 00 01 7F 00 00 01 04 1A]; the four address bytes are not zero. *)
Lemma success_reply_address_not_zero :
  sent_bytes CSock
    (trace (snd (Socks5_run (client_world (greeting_noauth ++ connect_localhost_80)
                               [client_readable]))))
  = [x05; x00] ++ [x05; x00; x00; x01; x7f; x00; x00; x01; x04; x1a] /\
  sent_bytes CSock
    (trace (snd (Socks5_run (client_world (greeting_noauth ++ connect_localhost_80)
                               [client_readable]))))
  <> [x05; x00] ++ [x05; x00; x00; x01; x00; x00; x00; x00; x04; x1a].
Proof. split; [reflexivity | discriminate]. Qed.

(** C1: the code accepts a request with version 5 and command 2 (BIND):
    it parses the address, asks the circuit for a stream to 127.0.0.1:80
    and answers with the success reply; no failure reply is sent. *)
Theorem bind_request_not_rejected :
  Byte.to_N (nth 1 bind_localhost_80 x00) = 2%N /\
  fst (Socks5_run (client_world (greeting_noauth ++ bind_localhost_80)
                     [client_readable])) = Val tt /\
  trace (snd (Socks5_run (client_world (greeting_noauth ++ bind_localhost_80)
                            [client_readable]))) =
  [EvSend CSock [x05; x00];
   EvLog Info (MsgConnecting (str_of_string "127.0.0.1") 80);
   EvCreateStream (str_of_string "127.0.0.1") 80;
   EvCreateSocket;
   EvSend CSock [x05; x00; x00; x01; x7f; x00; x00; x01; x04; x1a];
   EvLog Info MsgClosingServer; EvClose SSock;
   EvLog Info MsgClosingClient; EvClose CSock;
   EvLog Info MsgSuspending; EvStreamExit].
Proof. repeat split. Qed.

(** With version 5 the command byte plays no part: the request is parsed
    the same for every command. *)
Lemma run_request_ignores_command (w : world) (cmd rsv a b c d hi lo : byte)
    (rest : list byte) :
  rx (csock w) = [x05; cmd; rsv; x01; a; b; c; d; hi; lo] ++ rest ->
  run_request CSock w =
  (Val (Some (dotted_decimal a b c d, big_endian16 hi lo)), advance w rest 0 []).
Proof.
  intros Hrx. apply run_request_ipv4 with (1 := Hrx). now left.
Qed.

(** ** Addresses *)

(** C9: for a request with address type 1 the destination is the
    dotted-decimal rendering of the four address bytes, whatever they are,
    and the two bytes that follow are the port, the high byte first. *)
Theorem ipv4_request_destination :
  (forall (w : world) (ver cmd rsv a b c d hi lo : byte) (rest : list byte),
      rx (csock w) = [ver; cmd; rsv; x01; a; b; c; d; hi; lo] ++ rest ->
      passes_guard ver cmd ->
      run_request CSock w =
      (Val (Some (dotted_decimal a b c d, big_endian16 hi lo)),
       advance w rest 0 [])) /\
  dotted_decimal x00 x00 x00 x00 = str_of_string "0.0.0.0" /\
  dotted_decimal xff xff xff xff = str_of_string "255.255.255.255" /\
  big_endian16 x01 xbb = 443%N.
Proof.
  split; [|repeat split].
  intros w ver cmd rsv a b c d hi lo rest Hrx Hg.
  exact (@run_request_ipv4 w ver cmd rsv a b c d hi lo rest Hrx Hg).
Qed.

Lemma ipv4_request_destination_witness :
  run_request CSock (client_world connect_localhost_80 []) =
  (Val (Some (dotted_decimal x7f x00 x00 x01, big_endian16 x00 x50)),
   advance (client_world connect_localhost_80 []) [] 0 []).
Proof.
  apply (proj1 ipv4_request_destination (client_world connect_localhost_80 [])
           x05 x01 x00 x7f x00 x00 x01 x00 x50 []);
    [reflexivity | left; reflexivity].
Defined.

Lemma encode_domain_length (dom : pystr) :
  (List.length dom <= 255)%nat ->
  List.length (map byte_of_N dom)
  = N.to_nat (Byte.to_N (byte_of_N (N.of_nat (List.length dom)))).
Proof.
  intros Hlen. rewrite length_map, to_N_byte_of_N by lia. lia.
Qed.

(** C7: for a request with address type 3 and length byte [len], exactly
    [len] bytes are read as the name, whatever they are; bytes below 128,
    control characters among them, come out as the characters of the
    destination; and a printable ASCII name of at most 255 characters,
    written by [encode_domain], is read back as the destination. *)
Theorem domain_request_destination :
  (forall (w : world) (len : byte) (name rest : list byte),
      rx (csock w) = len :: name ++ rest ->
      List.length name = N.to_nat (Byte.to_N len) ->
      snd (run_address CSock 3 w) = advance w rest 0 [] /\
      fst (run_address CSock 3 w) =
      match utf8_decode name with
      | Some dest => Val (Some dest)
      | None => Raise UnicodeDecodeError
      end /\
      (Forall (fun b => (Byte.to_N b < 128)%N) name ->
       fst (run_address CSock 3 w) = Val (Some (ints name)))) /\
  (forall (w : world) (ver cmd rsv hi lo : byte) (dom : pystr) (rest : list byte),
      Forall printable_ascii dom ->
      (List.length dom <= 255)%nat ->
      rx (csock w) = [ver; cmd; rsv; x03] ++ encode_domain dom ++ [hi; lo] ++ rest ->
      passes_guard ver cmd ->
      run_request CSock w =
      (Val (Some (dom, big_endian16 hi lo)), advance w rest 0 [])).
Proof.
  split.
  - intros w len name rest Hrx Hlen.
    rewrite (@run_address_domain w len name rest Hrx Hlen). cbn [fst snd].
    split; [reflexivity|]. split; [reflexivity|].
    intros Hascii. now rewrite utf8_decode_ascii.
  - intros w ver cmd rsv hi lo dom rest Hdom Hlen Hrx Hg.
    apply (@run_request_domain w ver cmd rsv
             (byte_of_N (N.of_nat (List.length dom))) hi lo
             (map byte_of_N dom) rest dom).
    + exact Hrx.
    + now apply encode_domain_length.
    + exact Hg.
    + now apply utf8_decode_printable.
Qed.

Lemma domain_request_destination_witness :
  run_request CSock
    (client_world ([x05; x01; x00; x03]
                   ++ encode_domain (str_of_string "a.b") ++ [x01; xbb] ++ [x09]) [])
  = (Val (Some (str_of_string "a.b", big_endian16 x01 xbb)),
     advance
       (client_world ([x05; x01; x00; x03]
                      ++ encode_domain (str_of_string "a.b") ++ [x01; xbb] ++ [x09]) [])
       [x09] 0 []).
Proof.
  apply (proj2 domain_request_destination
           (client_world ([x05; x01; x00; x03]
                          ++ encode_domain (str_of_string "a.b")
                          ++ [x01; xbb] ++ [x09]) [])
           x05 x01 x00 x01 xbb (str_of_string "a.b") [x09]).
  - repeat constructor; unfold printable_ascii; simpl; lia.
  - simpl. lia.
  - reflexivity.
  - left. reflexivity.
Defined.

(** * Further properties of the negotiation *)

Lemma to_N_inj (a b : byte) : Byte.to_N a = Byte.to_N b -> a = b.
Proof.
  intros H. pose proof (Byte.of_to_N a) as Ha. rewrite H, Byte.of_to_N in Ha.
  now inversion Ha.
Qed.

Lemma to_N_neq (a b : byte) : a <> b -> (Byte.to_N a =? Byte.to_N b)%N = false.
Proof.
  intros Hne. apply N.eqb_neq. intros H. now apply Hne, to_N_inj.
Qed.

Lemma recv_exact_eof (s : sock_id) (w : world) (n : nat) :
  (List.length (rx (get_sock s w)) <= n)%nat ->
  rx_end (get_sock s w) = EOF ->
  recv_exact s n w =
  (Val (rx (get_sock s w)), set_sock s (set_rx (get_sock s w) []) w).
Proof.
  intros Hlen Hend. unfold recv_exact.
  destruct (n <=? List.length (rx (get_sock s w)))%nat eqn:Hn.
  - apply Nat.leb_le in Hn.
    assert (Heq : n = List.length (rx (get_sock s w))) by lia.
    rewrite Heq, firstn_all, skipn_all. reflexivity.
  - now rewrite Hend.
Qed.

Lemma Socks5_run_handshake_raises (w w1 : world) (e : exn) :
  client_sock w = Some CSock ->
  Socks5_handshake CSock w = (Raise e, w1) ->
  is_Exception e = true ->
  Socks5_run w =
  (Val tt,
   set_client_sock None
     (add_event (EvClose CSock) (add_event (EvLog Error MsgClosedByException) w1))).
Proof.
  intros Hcs Hhs Hexc.
  unfold Socks5_run, try_except, bind. rewrite Hcs, Hhs.
  unfold run_except. now rewrite Hexc.
Qed.

Lemma Socks5_handshake_greeting_raises (w w1 : world) (e : exn) :
  run_greeting CSock w = (Raise e, w1) ->
  Socks5_handshake CSock w = (Raise e, w1).
Proof. intros H. unfold Socks5_handshake, bind. now rewrite H. Qed.

(** X1: [except Exception] of line 156 is the last word on every exception
    of class [Exception]: what [run] lets out is never one. *)
Theorem Socks5_run_contains_exceptions (w : world) (s : sock_id) (e : exn) :
  client_sock w = Some s ->
  fst (Socks5_run w) = Raise e ->
  is_Exception e = false.
Proof.
  intros Hcs. unfold Socks5_run, try_except. rewrite Hcs.
  match goal with
  | |- context [bind ?c ?k w] => destruct (bind c k w) as [[[]|e'|] w1]
  end; cbn [fst]; try discriminate.
  unfold run_except. destruct (is_Exception e') eqn:He'.
  - cbn. discriminate.
  - cbn. intros H. inversion H. now subst.
Qed.

Lemma Socks5_run_contains_exceptions_witness :
  is_Exception SystemExit = false.
Proof.
  apply (@Socks5_run_contains_exceptions
           (failing_circuit_world (greeting_noauth ++ connect_localhost_80)
              BrokenPipeError)
           CSock SystemExit);
    reflexivity.
Defined.

(** X2: a client that connects and closes without sending a byte is
    answered like one with a wrong version: [05 FF], then the close. *)
Theorem empty_connection_refused (w : world) :
  client_sock w = Some CSock ->
  rx (csock w) = [] ->
  rx_end (csock w) = EOF ->
  sends_ok 1 (tx_faults (csock w)) = true ->
  fst (Socks5_run w) = Val tt /\
  trace (snd (Socks5_run w)) = trace w ++ [EvSend CSock [x05; xff]; EvClose CSock].
Proof.
  intros Hcs Hrx Hend Htx.
  assert (Hg : run_greeting CSock w =
               (Val false,
                set_client_sock None
                  (advance w [] 1 [EvSend CSock [x05; xff]; EvClose CSock]))).
  { unfold run_greeting, bind.
    rewrite recv_at_end by exact Hrx. cbn [get_sock]. rewrite Hend. cbn.
    rewrite Socks5_error_sent with (s := CSock) by assumption.
    destruct w as [[r e f p] k cf cs ck sx sc t]. cbn in Hcs, Hrx. subst.
    norm_world. now rewrite <- app_assoc. }
  apply Socks5_handshake_refused in Hg.
  apply Socks5_run_returns_early in Hg; [|assumption].
  rewrite Hg. split; reflexivity.
Qed.

Lemma empty_connection_refused_witness :
  fst (Socks5_run (client_world [] [])) = Val tt /\
  trace (snd (Socks5_run (client_world [] []))) =
  trace (client_world [] []) ++ [EvSend CSock [x05; xff]; EvClose CSock].
Proof.
  apply (@empty_connection_refused (client_world [] [])); reflexivity.
Defined.

(** X3: a client that closes right after the version byte gets no reply
    at all: unpacking the missing method count raises [ValueError], and
    [run] logs and closes. *)
Theorem truncated_greeting_closed_silently (w : world) :
  client_sock w = Some CSock ->
  rx (csock w) = [x05] ->
  rx_end (csock w) = EOF ->
  fst (Socks5_run w) = Val tt /\
  client_sock (snd (Socks5_run w)) = None /\
  trace (snd (Socks5_run w)) =
  trace w ++ [EvLog Error MsgClosedByException; EvClose CSock].
Proof.
  intros Hcs Hrx Hend.
  assert (Hg : run_greeting CSock w = (Raise ValueError, advance w [] 0 [])).
  { destruct w as [[r e f p] k cf cs ck sx sc t]. cbn in Hcs, Hrx, Hend. subst.
    unfold run_greeting, bind. cbn. norm_world. now rewrite app_nil_r. }
  apply Socks5_handshake_greeting_raises in Hg.
  apply Socks5_run_handshake_raises in Hg; [|assumption|reflexivity].
  rewrite Hg. repeat split. norm_world. now rewrite app_nil_r, <- app_assoc.
Qed.

Lemma truncated_greeting_closed_silently_witness :
  fst (Socks5_run (client_world [x05] [])) = Val tt /\
  client_sock (snd (Socks5_run (client_world [x05] []))) = None /\
  trace (snd (Socks5_run (client_world [x05] []))) =
  trace (client_world [x05] []) ++ [EvLog Error MsgClosedByException; EvClose CSock].
Proof.
  apply (@truncated_greeting_closed_silently (client_world [x05] [])); reflexivity.
Defined.

(** ** Requests that are cut short or refused *)

Lemma run_greeting_at_eof (w : world) (nmeth : byte) (methods : list byte) :
  rx (csock w) = x05 :: nmeth :: methods ->
  (List.length methods <= N.to_nat (Byte.to_N nmeth))%nat ->
  rx_end (csock w) = EOF ->
  sends_ok 1 (tx_faults (csock w)) = true ->
  run_greeting CSock w = (Val true, advance w [] 1 [EvSend CSock [x05; x00]]).
Proof.
  intros Hrx Hlen Hend Htx.
  destruct w as [[r e f p] k c cs ck sx sc t]. cbn in Hrx, Hend, Htx. subst r e.
  unfold run_greeting, bind. cbn.
  rewrite recv_exact_eof by (cbn; auto).
  rewrite send_ok by exact Htx.
  norm_world. reflexivity.
Qed.

Lemma run_request_at_eof (w : world) :
  client_sock w = Some CSock ->
  rx (csock w) = [] ->
  rx_end (csock w) = EOF ->
  sends_ok 1 (tx_faults (csock w)) = true ->
  run_request CSock w =
  (Val None,
   set_client_sock None
     (advance w [] 1 [EvSend CSock [x05; x01; x00]; EvClose CSock])).
Proof.
  intros Hcs Hrx Hend Htx.
  unfold run_request, bind.
  rewrite recv_exact_eof by (cbn [get_sock]; rewrite ?Hrx; cbn; auto with arith).
  cbn [get_sock]. rewrite Hrx. cbn.
  rewrite Socks5_error_sent with (s := CSock) by (cbn; auto).
  destruct w as [[r e f p] k c cs ck sx sc t]. cbn in Hcs, Hrx. subst.
  norm_world. now rewrite <- app_assoc.
Qed.

Lemma run_request_short_header (w : world) :
  rx (csock w) <> [] ->
  (List.length (rx (csock w)) < 4)%nat ->
  rx_end (csock w) = EOF ->
  run_request CSock w = (Raise ValueError, advance w [] 0 []).
Proof.
  intros Hne Hlen Hend.
  unfold run_request, bind.
  rewrite recv_exact_eof by (cbn [get_sock]; auto with arith).
  destruct w as [[r e f p] k c cs ck sx sc t]. cbn in Hne, Hlen, Hend |- *.
  destruct r as [|b0 [|b1 [|b2 [|b3 r]]]]; cbn in Hlen; try lia;
    try congruence; norm_world; now rewrite app_nil_r.
Qed.

Lemma run_request_guard_rejects (w : world) (ver cmd rsv atyp : byte)
    (rest : list byte) :
  client_sock w = Some CSock ->
  rx (csock w) = [ver; cmd; rsv; atyp] ++ rest ->
  ver <> x05 -> cmd <> x01 ->
  sends_ok 1 (tx_faults (csock w)) = true ->
  run_request CSock w =
  (Val None,
   set_client_sock None
     (advance w rest 1 [EvSend CSock [x05; x01; x00]; EvClose CSock])).
Proof.
  intros Hcs Hrx Hver Hcmd Htx.
  unfold run_request, bind.
  rewrite recv_exact_app with (bs := [ver; cmd; rsv; atyp]) (rest := rest)
    by (exact Hrx || reflexivity).
  cbn.
  change 5%N with (Byte.to_N x05). change 1%N with (Byte.to_N x01).
  rewrite (to_N_neq Hver), (to_N_neq Hcmd). cbn.
  rewrite Socks5_error_sent with (s := CSock) by (cbn; auto).
  destruct w as [[r e f p] k c cs ck sx sc t]. cbn in Hcs. subst c.
  norm_world. now rewrite <- app_assoc.
Qed.

Lemma run_request_unknown_atyp (w : world) (ver cmd rsv atyp : byte)
    (rest : list byte) :
  client_sock w = Some CSock ->
  rx (csock w) = [ver; cmd; rsv; atyp] ++ rest ->
  passes_guard ver cmd ->
  atyp <> x01 -> atyp <> x03 -> atyp <> x04 ->
  sends_ok 1 (tx_faults (csock w)) = true ->
  run_request CSock w =
  (Val None,
   set_client_sock None
     (advance w rest 1 [EvSend CSock [x05; x01; x00]; EvClose CSock])).
Proof.
  intros Hcs Hrx Hg H1 H3 H4 Htx.
  unfold run_request, bind.
  rewrite recv_exact_app with (bs := [ver; cmd; rsv; atyp]) (rest := rest)
    by (exact Hrx || reflexivity).
  cbn. rewrite (guard_passes Hg). cbn.
  unfold run_address.
  change 1%N with (Byte.to_N x01). change 3%N with (Byte.to_N x03).
  change 4%N with (Byte.to_N x04).
  rewrite (to_N_neq H1), (to_N_neq H3), (to_N_neq H4).
  unfold bind.
  rewrite Socks5_error_sent with (s := CSock) by (cbn; auto).
  destruct w as [[r e f p] k c cs ck sx sc t]. cbn in Hcs. subst c.
  norm_world. now rewrite <- app_assoc.
Qed.

Lemma run_request_bad_name (w : world) (ver cmd rsv len : byte)
    (name rest : list byte) :
  rx (csock w) = [ver; cmd; rsv; x03; len] ++ name ++ rest ->
  List.length name = N.to_nat (Byte.to_N len) ->
  passes_guard ver cmd ->
  utf8_decode name = None ->
  run_request CSock w = (Raise UnicodeDecodeError, advance w rest 0 []).
Proof.
  intros Hrx Hlen Hg Hdec.
  unfold run_request, bind.
  rewrite recv_exact_app with (bs := [ver; cmd; rsv; x03])
                              (rest := len :: name ++ rest)
    by (exact Hrx || reflexivity).
  cbn. rewrite (guard_passes Hg). cbn.
  rewrite run_address_domain with (len := len) (name := name) (rest := rest)
    by (cbn; auto).
  rewrite Hdec.
  destruct w as [[r e f p] k cf cs ck sx sc t].
  norm_world. now rewrite !app_nil_r.
Qed.

Lemma int16_hex_one (b : byte) : int16 (hex [b]) = Some (Byte.to_N b).
Proof.
  change (hex [b]) with (hex [b] ++ []).
  unfold int16. destruct (hex [b] ++ []) eqn:Hh; [discriminate Hh|].
  rewrite <- Hh, int16_digits_hex_byte. cbn [int16_digits]. f_equal; lia.
Qed.

Lemma run_request_ipv4_at_eof (w : world) (ver cmd rsv : byte)
    (addr port : list byte) :
  rx (csock w) = [ver; cmd; rsv; x01] ++ addr ++ port ->
  rx_end (csock w) = EOF ->
  passes_guard ver cmd ->
  (List.length addr < 4 /\ port = [] \/ List.length addr = 4 /\ List.length port <= 2)%nat ->
  run_request CSock w =
  (match int16 (hex port) with
   | Some n => Val (Some (join (str_of_string ".") (map py_str (ints addr)), n))
   | None => Raise ValueError
   end, advance w [] 0 []).
Proof.
  intros Hrx Hend Hg Hcases.
  unfold run_request, bind.
  rewrite recv_exact_app with (bs := [ver; cmd; rsv; x01]) (rest := addr ++ port)
    by (exact Hrx || reflexivity).
  cbn. rewrite (guard_passes Hg). cbn.
  unfold run_address, bind. cbn.
  destruct w as [[r e f p] k cf cs ck sx sc t]. cbn in Hrx, Hend. subst r e.
  destruct Hcases as [[Hlen ->] | [Hlen Hport]].
  - rewrite app_nil_r.
    rewrite recv_exact_eof by (cbn; auto with arith). cbn.
    rewrite recv_exact_eof by (cbn; auto with arith). cbn.
    unfold int_16. change (int16 (hex [])) with (@None N).
    norm_world. now rewrite app_nil_r.
  - rewrite recv_exact_app with (bs := addr) (rest := port) by (cbn; auto).
    cbn.
    rewrite recv_exact_eof by (cbn; auto). cbn.
    unfold int_16. destruct (int16 (hex port)); norm_world; now rewrite app_nil_r.
Qed.

Lemma Socks5_run_request_refused (w w2 : world) (nmeth : byte)
    (methods req : list byte) :
  client_sock w = Some CSock ->
  rx (csock w) = x05 :: nmeth :: methods ++ req ->
  List.length methods = N.to_nat (Byte.to_N nmeth) ->
  sends_ok 1 (tx_faults (csock w)) = true ->
  run_request CSock (advance w req 1 [EvSend CSock [x05; x00]]) = (Val None, w2) ->
  Socks5_run w = (Val tt, w2).
Proof.
  intros Hcs Hrx Hlen Htx Hreq.
  pose proof (@run_greeting_ok w nmeth methods req Hrx Hlen Htx) as Hg.
  apply Socks5_handshake_after_greeting in Hg. rewrite Hreq in Hg.
  now apply Socks5_run_returns_early.
Qed.

Lemma Socks5_run_request_raises (w w2 : world) (nmeth : byte)
    (methods req : list byte) (e : exn) :
  client_sock w = Some CSock ->
  rx (csock w) = x05 :: nmeth :: methods ++ req ->
  List.length methods = N.to_nat (Byte.to_N nmeth) ->
  sends_ok 1 (tx_faults (csock w)) = true ->
  run_request CSock (advance w req 1 [EvSend CSock [x05; x00]]) = (Raise e, w2) ->
  is_Exception e = true ->
  Socks5_run w =
  (Val tt,
   set_client_sock None
     (add_event (EvClose CSock) (add_event (EvLog Error MsgClosedByException) w2))).
Proof.
  intros Hcs Hrx Hlen Htx Hreq Hexc.
  pose proof (@run_greeting_ok w nmeth methods req Hrx Hlen Htx) as Hg.
  apply Socks5_handshake_after_greeting in Hg. rewrite Hreq in Hg.
  now apply Socks5_run_handshake_raises with (e := e).
Qed.

(** X4: a client that closes after its greeting, with the announced
    methods complete or not, is sent [05 00] all the same, then the failure
    reply [05 01 00], and the socket is closed. *)
Theorem greeting_without_request (w : world) (nmeth : byte) (methods : list byte) :
  client_sock w = Some CSock ->
  rx (csock w) = x05 :: nmeth :: methods ->
  (List.length methods <= N.to_nat (Byte.to_N nmeth))%nat ->
  rx_end (csock w) = EOF ->
  sends_ok 2 (tx_faults (csock w)) = true ->
  fst (Socks5_run w) = Val tt /\
  trace (snd (Socks5_run w)) =
  trace w ++ [EvSend CSock [x05; x00]; EvSend CSock [x05; x01; x00]; EvClose CSock].
Proof.
  intros Hcs Hrx Hlen Hend Htx.
  pose proof (@run_greeting_at_eof w nmeth methods Hrx Hlen Hend
                (sends_ok_one _ _ Htx)) as Hg.
  apply Socks5_handshake_after_greeting in Hg.
  rewrite run_request_at_eof in Hg;
    [ | exact Hcs | reflexivity | exact Hend | apply sends_ok_skipn_1; exact Htx ].
  apply Socks5_run_returns_early in Hg; [|assumption].
  rewrite Hg. split; [reflexivity|].
  unfold advance. cbn. now rewrite <- app_assoc.
Qed.

Lemma greeting_without_request_witness :
  fst (Socks5_run (client_world [x05; x03; x00] [])) = Val tt /\
  trace (snd (Socks5_run (client_world [x05; x03; x00] []))) =
  trace (client_world [x05; x03; x00] [])
  ++ [EvSend CSock [x05; x00]; EvSend CSock [x05; x01; x00]; EvClose CSock].
Proof.
  apply (@greeting_without_request (client_world [x05; x03; x00] []) x03 [x00]);
    [reflexivity | reflexivity | simpl; lia | reflexivity | reflexivity].
Defined.

(** X5: a request header of one to three bytes, after which the client
    closes, gets no failure reply: unpacking it raises [ValueError], and
    [run] logs and closes; [05 00] is all the client was sent. *)
Theorem truncated_header_closed_silently (w : world) (nmeth : byte)
    (methods hdr : list byte) :
  client_sock w = Some CSock ->
  rx (csock w) = x05 :: nmeth :: methods ++ hdr ->
  List.length methods = N.to_nat (Byte.to_N nmeth) ->
  hdr <> [] -> (List.length hdr < 4)%nat ->
  rx_end (csock w) = EOF ->
  sends_ok 1 (tx_faults (csock w)) = true ->
  fst (Socks5_run w) = Val tt /\
  trace (snd (Socks5_run w)) =
  trace w ++ [EvSend CSock [x05; x00]; EvLog Error MsgClosedByException;
              EvClose CSock].
Proof.
  intros Hcs Hrx Hlen Hne Hshort Hend Htx.
  rewrite (@Socks5_run_request_raises w _ nmeth methods hdr ValueError
             Hcs Hrx Hlen Htx
             (@run_request_short_header
                (advance w hdr 1 [EvSend CSock [x05; x00]]) Hne Hshort Hend)
             eq_refl).
  split; [reflexivity|].
  unfold advance. cbn. now rewrite app_nil_r, <- !app_assoc.
Qed.

Lemma truncated_header_closed_silently_witness :
  fst (Socks5_run (client_world [x05; x01; x00; x05; x01] [])) = Val tt /\
  trace (snd (Socks5_run (client_world [x05; x01; x00; x05; x01] []))) =
  trace (client_world [x05; x01; x00; x05; x01] [])
  ++ [EvSend CSock [x05; x00]; EvLog Error MsgClosedByException; EvClose CSock].
Proof.
  apply (@truncated_header_closed_silently
           (client_world [x05; x01; x00; x05; x01] []) x01 [x00] [x05; x01]);
    [reflexivity | reflexivity | reflexivity | discriminate | simpl; lia
    | reflexivity | reflexivity].
Defined.

(** X6: a request whose version is not 5 and whose command is not 1 is
    refused with [05 01 00] and closed; nothing after its four header
    bytes is read, whatever the address type. *)
Theorem both_wrong_header_rejected (w : world) (nmeth ver cmd rsv atyp : byte)
    (methods rest : list byte) :
  client_sock w = Some CSock ->
  rx (csock w) = x05 :: nmeth :: methods ++ [ver; cmd; rsv; atyp] ++ rest ->
  List.length methods = N.to_nat (Byte.to_N nmeth) ->
  ver <> x05 -> cmd <> x01 ->
  sends_ok 2 (tx_faults (csock w)) = true ->
  fst (Socks5_run w) = Val tt /\
  rx (csock (snd (Socks5_run w))) = rest /\
  trace (snd (Socks5_run w)) =
  trace w ++ [EvSend CSock [x05; x00]; EvSend CSock [x05; x01; x00]; EvClose CSock].
Proof.
  intros Hcs Hrx Hlen Hver Hcmd Htx.
  rewrite (@Socks5_run_request_refused w _ nmeth methods _
             Hcs Hrx Hlen (sends_ok_one _ _ Htx)
             (@run_request_guard_rejects
                (advance w ([ver; cmd; rsv; atyp] ++ rest) 1 [EvSend CSock [x05; x00]])
                ver cmd rsv atyp rest Hcs eq_refl Hver Hcmd
                (sends_ok_skipn_1 _ _ Htx))).
  split; [reflexivity|]. split; [reflexivity|].
  unfold advance. cbn. now rewrite <- app_assoc.
Qed.

Lemma both_wrong_header_rejected_witness :
  fst (Socks5_run (client_world
         (greeting_noauth ++ [x04; x02; x00; x01] ++ [x7f; x00]) [])) = Val tt /\
  rx (csock (snd (Socks5_run (client_world
         (greeting_noauth ++ [x04; x02; x00; x01] ++ [x7f; x00]) []))))
  = [x7f; x00] /\
  trace (snd (Socks5_run (client_world
         (greeting_noauth ++ [x04; x02; x00; x01] ++ [x7f; x00]) []))) =
  trace (client_world (greeting_noauth ++ [x04; x02; x00; x01] ++ [x7f; x00]) [])
  ++ [EvSend CSock [x05; x00]; EvSend CSock [x05; x01; x00]; EvClose CSock].
Proof.
  apply (@both_wrong_header_rejected
           (client_world (greeting_noauth ++ [x04; x02; x00; x01] ++ [x7f; x00]) [])
           x01 x04 x02 x00 x01 [x00] [x7f; x00]);
    [reflexivity | reflexivity | reflexivity | discriminate | discriminate
    | reflexivity].
Defined.



(** X8: an address type other than 1, 3 and 4 is refused with [05 01 00]
    and closed; no byte after the header is read and [create_stream] is not
    called. *)
Theorem unknown_address_type_rejected (w : world) (nmeth ver cmd rsv atyp : byte)
    (methods rest : list byte) :
  client_sock w = Some CSock ->
  rx (csock w) = x05 :: nmeth :: methods ++ [ver; cmd; rsv; atyp] ++ rest ->
  List.length methods = N.to_nat (Byte.to_N nmeth) ->
  passes_guard ver cmd ->
  atyp <> x01 -> atyp <> x03 -> atyp <> x04 ->
  sends_ok 2 (tx_faults (csock w)) = true ->
  fst (Socks5_run w) = Val tt /\
  rx (csock (snd (Socks5_run w))) = rest /\
  trace (snd (Socks5_run w)) =
  trace w ++ [EvSend CSock [x05; x00]; EvSend CSock [x05; x01; x00]; EvClose CSock].
Proof.
  intros Hcs Hrx Hlen Hg H1 H3 H4 Htx.
  rewrite (@Socks5_run_request_refused w _ nmeth methods _
             Hcs Hrx Hlen (sends_ok_one _ _ Htx)
             (@run_request_unknown_atyp
                (advance w ([ver; cmd; rsv; atyp] ++ rest) 1 [EvSend CSock [x05; x00]])
                ver cmd rsv atyp rest Hcs eq_refl Hg H1 H3 H4
                (sends_ok_skipn_1 _ _ Htx))).
  split; [reflexivity|]. split; [reflexivity|].
  unfold advance. cbn. now rewrite <- app_assoc.
Qed.

Lemma unknown_address_type_rejected_witness :
  fst (Socks5_run (client_world
         (greeting_noauth ++ [x05; x01; x00; x02] ++ [x7f]) [])) = Val tt /\
  rx (csock (snd (Socks5_run (client_world
         (greeting_noauth ++ [x05; x01; x00; x02] ++ [x7f]) [])))) = [x7f] /\
  trace (snd (Socks5_run (client_world
         (greeting_noauth ++ [x05; x01; x00; x02] ++ [x7f]) []))) =
  trace (client_world (greeting_noauth ++ [x05; x01; x00; x02] ++ [x7f]) [])
  ++ [EvSend CSock [x05; x00]; EvSend CSock [x05; x01; x00]; EvClose CSock].
Proof.
  apply (@unknown_address_type_rejected
           (client_world (greeting_noauth ++ [x05; x01; x00; x02] ++ [x7f]) [])
           x01 x05 x01 x00 x02 [x00] [x7f]);
    [reflexivity | reflexivity | reflexivity | left; reflexivity
    | discriminate | discriminate | discriminate | reflexivity].
Defined.

(** X9: a domain name that is not valid UTF-8 gets no failure reply:
    [decode] raises, and [run] logs and closes without calling
    [create_stream]; the name and nothing after it has been read. *)
Theorem undecodable_name_closed_silently (w : world) (nmeth ver cmd rsv len : byte)
    (methods name rest : list byte) :
  client_sock w = Some CSock ->
  rx (csock w) =
    x05 :: nmeth :: methods ++ [ver; cmd; rsv; x03; len] ++ name ++ rest ->
  List.length methods = N.to_nat (Byte.to_N nmeth) ->
  List.length name = N.to_nat (Byte.to_N len) ->
  passes_guard ver cmd ->
  utf8_decode name = None ->
  sends_ok 1 (tx_faults (csock w)) = true ->
  fst (Socks5_run w) = Val tt /\
  rx (csock (snd (Socks5_run w))) = rest /\
  trace (snd (Socks5_run w)) =
  trace w ++ [EvSend CSock [x05; x00]; EvLog Error MsgClosedByException;
              EvClose CSock].
Proof.
  intros Hcs Hrx Hlen Hlen' Hg Hdec Htx.
  rewrite (@Socks5_run_request_raises w _ nmeth methods _ UnicodeDecodeError
             Hcs Hrx Hlen Htx
             (@run_request_bad_name
                (advance w ([ver; cmd; rsv; x03; len] ++ name ++ rest) 1
                   [EvSend CSock [x05; x00]])
                ver cmd rsv len name rest eq_refl Hlen' Hg Hdec)
             eq_refl).
  split; [reflexivity|]. split; [reflexivity|].
  unfold advance. cbn. now rewrite app_nil_r, <- !app_assoc.
Qed.

Lemma undecodable_name_closed_silently_witness :
  fst (Socks5_run (client_world
         (greeting_noauth ++ [x05; x01; x00; x03; x01] ++ [xff] ++ [x00; x50]) []))
  = Val tt /\
  rx (csock (snd (Socks5_run (client_world
         (greeting_noauth ++ [x05; x01; x00; x03; x01] ++ [xff] ++ [x00; x50]) []))))
  = [x00; x50] /\
  trace (snd (Socks5_run (client_world
         (greeting_noauth ++ [x05; x01; x00; x03; x01] ++ [xff] ++ [x00; x50]) [])))
  = trace (client_world
         (greeting_noauth ++ [x05; x01; x00; x03; x01] ++ [xff] ++ [x00; x50]) [])
    ++ [EvSend CSock [x05; x00]; EvLog Error MsgClosedByException; EvClose CSock].
Proof.
  apply (@undecodable_name_closed_silently
           (client_world
              (greeting_noauth ++ [x05; x01; x00; x03; x01] ++ [xff] ++ [x00; x50]) [])
           x01 x05 x01 x00 x01 [x00] [xff] [x00; x50]);
    [reflexivity | reflexivity | reflexivity | reflexivity | left; reflexivity
    | reflexivity | reflexivity].
Defined.

(** X10: when the client closes after a single port byte, that byte alone
    is taken as the port. *)
Theorem one_byte_port_accepted (w : world) (ver cmd rsv a b c d p : byte) :
  rx (csock w) = [ver; cmd; rsv; x01; a; b; c; d; p] ->
  rx_end (csock w) = EOF ->
  passes_guard ver cmd ->
  run_request CSock w =
  (Val (Some (dotted_decimal a b c d, Byte.to_N p)), advance w [] 0 []).
Proof.
  intros Hrx Hend Hg.
  rewrite (@run_request_ipv4_at_eof w ver cmd rsv [a; b; c; d] [p] Hrx Hend Hg)
    by (right; split; simpl; lia).
  rewrite int16_hex_one. cbn [ints map join].
  rewrite !py_str_byte. reflexivity.
Qed.

Lemma one_byte_port_accepted_witness :
  run_request CSock
    (client_world [x05; x01; x00; x01; x7f; x00; x00; x01; x50] [])
  = (Val (Some (dotted_decimal x7f x00 x00 x01, Byte.to_N x50)),
     advance (client_world [x05; x01; x00; x01; x7f; x00; x00; x01; x50] []) [] 0 []).
Proof.
  apply (@one_byte_port_accepted
           (client_world [x05; x01; x00; x01; x7f; x00; x00; x01; x50] [])
           x05 x01 x00 x7f x00 x00 x01 x50);
    [reflexivity | reflexivity | left; reflexivity].
Defined.

(** X11: an IPv4 request that ends before its port, with the address
    complete or cut short, never reaches [create_stream]: reading the port
    raises [ValueError], and [run] logs and closes without a failure
    reply. *)
Theorem request_without_port_closed_silently (w : world) (nmeth ver cmd rsv : byte)
    (methods addr : list byte) :
  client_sock w = Some CSock ->
  rx (csock w) = x05 :: nmeth :: methods ++ [ver; cmd; rsv; x01] ++ addr ->
  List.length methods = N.to_nat (Byte.to_N nmeth) ->
  (List.length addr <= 4)%nat ->
  rx_end (csock w) = EOF ->
  passes_guard ver cmd ->
  sends_ok 1 (tx_faults (csock w)) = true ->
  fst (Socks5_run w) = Val tt /\
  trace (snd (Socks5_run w)) =
  trace w ++ [EvSend CSock [x05; x00]; EvLog Error MsgClosedByException;
              EvClose CSock].
Proof.
  intros Hcs Hrx Hlen Hlen' Hend Hg Htx.
  assert (Hreq : run_request CSock
                   (advance w ([ver; cmd; rsv; x01] ++ addr) 1
                      [EvSend CSock [x05; x00]])
                 = (Raise ValueError,
                    advance (advance w ([ver; cmd; rsv; x01] ++ addr) 1
                               [EvSend CSock [x05; x00]]) [] 0 [])).
  { rewrite (@run_request_ipv4_at_eof _ ver cmd rsv addr []);
      [reflexivity | now rewrite app_nil_r | exact Hend | exact Hg |].
    destruct (Nat.eq_dec (List.length addr) 4) as [H4|H4];
      [right | left]; split; simpl; auto; lia. }
  rewrite (@Socks5_run_request_raises w _ nmeth methods _ ValueError
             Hcs Hrx Hlen Htx Hreq eq_refl).
  split; [reflexivity|].
  unfold advance. cbn. now rewrite app_nil_r, <- !app_assoc.
Qed.

Lemma request_without_port_closed_silently_witness :
  fst (Socks5_run (client_world
         (greeting_noauth ++ [x05; x01; x00; x01] ++ [x7f; x00]) [])) = Val tt /\
  trace (snd (Socks5_run (client_world
         (greeting_noauth ++ [x05; x01; x00; x01] ++ [x7f; x00]) []))) =
  trace (client_world (greeting_noauth ++ [x05; x01; x00; x01] ++ [x7f; x00]) [])
  ++ [EvSend CSock [x05; x00]; EvLog Error MsgClosedByException; EvClose CSock].
Proof.
  apply (@request_without_port_closed_silently
           (client_world (greeting_noauth ++ [x05; x01; x00; x01] ++ [x7f; x00]) [])
           x01 x05 x01 x00 [x00] [x7f; x00]);
    [reflexivity | reflexivity | reflexivity | simpl; lia | reflexivity
    | left; reflexivity | reflexivity].
Defined.

(** * Further properties of the relay *)


(** One side of a turn of the loop: the bytes taken from [from] are the
    ones handed to [to], unless [send] raised and they are [lost]. *)
Lemma relay_side_forwards (from to : sock_id) (r : list sock_id) (a : nat)
    (w : world) :
  from <> to ->
  exists evs lost,
    trace (snd (relay_side from to r a w)) = trace w ++ evs /\
    Forall relay_chunk evs /\
    rx (get_sock from w)
    = sent_bytes to evs ++ lost ++ rx (get_sock from (snd (relay_side from to r a w))) /\
    sent_bytes from evs = [] /\
    rx (get_sock to (snd (relay_side from to r a w))) = rx (get_sock to w) /\
    ((forall e, fst (relay_side from to r a w) <> Raise e) -> lost = []).
Proof.
  intros Hne. unfold relay_side.
  destruct (mem from r).
  2:{ exists [], []. cbn. rewrite app_nil_r. repeat split; auto. }
  unfold bind, recv.
  destruct (rx (get_sock from w)) as [|b l] eqn:Hrx.
  { destruct (rx_end (get_sock from w)); cbn; rewrite ?Hrx;
      exists [], []; cbn; rewrite app_nil_r; repeat split; auto. }
  set (n := Nat.min 4096 (Nat.max 1 a)).
  assert (Hn : (1 <= n <= 4096)%nat) by (subst n; lia).
  assert (Hbuf : (1 <= List.length (firstn n (b :: l)) <= 4096)%nat).
  { rewrite length_firstn. cbn [List.length]. lia. }
  destruct (List.length (firstn n (b :: l)) =? 0)%nat eqn:Hz;
    [apply Nat.eqb_eq in Hz; lia|].
  pose proof (firstn_skipn n (b :: l)) as Hsplit.
  unfold send.
  clearbody n.
  destruct from, to; try congruence;
    destruct w as [[cr ce cf cp] [sr se sf sp] fld cs ck sx sc t];
    cbn [get_sock set_sock set_rx csock ssock tx_faults rx] in *; subst.
  - destruct sf as [|[e|] fs]; unfold ret, add_event, set_rx, set_tx_faults; cbn.
    + exists [EvSend SSock (firstn n (b :: l))], []. cbn.
      rewrite app_nil_r. repeat split; auto; repeat constructor; cbn; lia.
    + exists [], (firstn n (b :: l)). cbn. rewrite app_nil_r.
      repeat split; auto. intros Hno. exfalso. now apply (Hno e).
    + exists [EvSend SSock (firstn n (b :: l))], []. cbn.
      rewrite app_nil_r. repeat split; auto; repeat constructor; cbn; lia.
  - destruct cf as [|[e|] fs]; unfold ret, add_event, set_rx, set_tx_faults; cbn.
    + exists [EvSend CSock (firstn n (b :: l))], []. cbn.
      rewrite app_nil_r. repeat split; auto; repeat constructor; cbn; lia.
    + exists [], (firstn n (b :: l)). cbn. rewrite app_nil_r.
      repeat split; auto. intros Hno. exfalso. now apply (Hno e).
    + exists [EvSend CSock (firstn n (b :: l))], []. cbn.
      rewrite app_nil_r. repeat split; auto; repeat constructor; cbn; lia.
Qed.

Lemma relay_side_chunks (from to : sock_id) (r : list sock_id) (a : nat) :
  from <> to -> emits relay_chunk (relay_side from to r a).
Proof.
  intros Hne w.
  destruct (relay_side_forwards r a w Hne) as (evs & lost & Htr & Hch & _).
  now exists evs.
Qed.

(** X17: all the loop of the relay puts on the trace are sends, each of at
    least one byte and at most 4096. *)
Theorem relay_sends_chunks (script : list wake) :
  emits relay_chunk (relay_loop SSock CSock script).
Proof.
  induction script as [|k script IH]; cbn [relay_loop].
  - apply (emits_pure relay_chunk (fun _ => @Hang unit)).
  - apply emits_bind; [apply emits_select|]. intros r.
    apply emits_bind; [apply relay_side_chunks; discriminate|].
    intros [|]; [apply emits_ret|].
    apply emits_bind; [apply relay_side_chunks; discriminate|].
    intros [|]; [apply emits_ret|].
    exact IH.
Qed.



(** * Further properties of the connection to the circuit *)

Lemma stream_exits_app (l1 l2 : list event) :
  stream_exits (l1 ++ l2) = (stream_exits l1 + stream_exits l2)%nat.
Proof.
  induction l1 as [|e l1 IH]; cbn; [reflexivity|].
  destruct (is_stream_exit e); cbn; now rewrite IH.
Qed.

Lemma stream_exits_none (l : list event) :
  Forall not_stream_exit l -> stream_exits l = 0%nat.
Proof.
  induction 1 as [|e l He _ IH]; cbn; [reflexivity|].
  unfold not_stream_exit in He. now rewrite He.
Qed.

Section SocketEvents.

Variable P : event -> Prop.
Hypothesis P_send : forall s data, P (EvSend s data).
Hypothesis P_close : forall s, P (EvClose s).
Hypothesis P_log : forall l m, P (EvLog l m).

Lemma emits_relay_side_sockets (from to : sock_id) (r : list sock_id) (a : nat) :
  emits P (relay_side from to r a).
Proof. unfold relay_side. emits_split; apply P_send. Qed.

Lemma emits_relay_loop_sockets (ssock csock : sock_id) (script : list wake) :
  emits P (relay_loop ssock csock script).
Proof.
  induction script as [|k script IH]; cbn [relay_loop].
  - apply (emits_pure P (fun _ => @Hang unit)).
  - apply emits_bind; [apply emits_select|]. intros r.
    apply emits_bind; [apply emits_relay_side_sockets|].
    intros [|]; [apply emits_ret|].
    apply emits_bind; [apply emits_relay_side_sockets|].
    intros [|]; [apply emits_ret|].
    exact IH.
Qed.

Lemma emits_relay_sockets (ssock csock : sock_id) : emits P (relay ssock csock).
Proof.
  unfold relay, relay_cleanup. emits_split; auto.
  intros w. apply emits_relay_loop_sockets.
Qed.

Lemma emits_SocksProxy_run_sockets (ssock csock : sock_id) :
  emits P (SocksProxy_run ssock csock).
Proof.
  unfold SocksProxy_run. emits_split; auto. apply emits_relay_sockets.
Qed.

Hypothesis P_create_socket : P EvCreateSocket.

Lemma emits_stream_body_sockets (csock : sock_id) :
  emits P
    (s <- tor_stream_create_socket ;;
     a <- SocksProxy_run s csock ;;
     L MsgSuspending ;;
     ret a).
Proof.
  unfold tor_stream_create_socket. emits_split; auto.
  - intros w. exists []. rewrite app_nil_r.
    split; [|constructor]. now destruct (create_socket_exn w).
  - apply emits_SocksProxy_run_sockets.
Qed.

End SocketEvents.

(** X14: the stream is left through its [__exit__] exactly once when
    [create_stream] returned it and the block came to an end, whether by a
    return or by an exception; never when [create_stream] raised, or while
    the relay is still waiting. *)
Theorem stream_released_once (w : world) (dest : pystr) (port : N) :
  exists evs,
    trace (snd (run_connect CSock dest port w)) = trace w ++ evs /\
    stream_exits evs =
    match create_stream_exn w dest port, fst (run_connect CSock dest port w) with
    | Some _, _ => 0%nat
    | None, Hang => 0%nat
    | None, _ => 1%nat
    end.
Proof.
  unfold run_connect, Socks5_create_socket, with_create_stream,
    circuit_create_stream.
  set (body := (s <- tor_stream_create_socket ;;
                a <- SocksProxy_run s CSock ;;
                L MsgSuspending ;;
                ret a)).
  assert (Hbody : emits not_stream_exit body).
  { apply emits_stream_body_sockets; intros; reflexivity. }
  unfold try_except, bind, L, emit.
  cbn [create_stream_exn add_event].
  destruct (create_stream_exn w dest port) as [e|].
  - destruct (is_BrokenPipeError e); cbn; eexists;
      (split; [rewrite <- ?app_assoc; reflexivity | reflexivity]).
  - unfold try_finally, tor_stream_exit, bind, emit.
    match goal with
    | |- context [body ?w2] =>
        destruct (Hbody w2) as (evs & Hevs & Hnone);
        destruct (body w2) as [[a|e|] w3]
    end; cbn [fst snd] in Hevs; cbn [add_event trace] in Hevs.
    + cbn [stream_exit_exn add_event].
      destruct (stream_exit_exn w3) as [e'|]; cbn.
      * destruct (is_BrokenPipeError e'); cbn; rewrite Hevs; eexists;
          (split; [rewrite <- !app_assoc; reflexivity|]);
          cbn; rewrite !stream_exits_app, (stream_exits_none Hnone); reflexivity.
      * rewrite Hevs. eexists.
        split; [rewrite <- !app_assoc; reflexivity|].
        cbn. rewrite !stream_exits_app, (stream_exits_none Hnone). reflexivity.
    + cbn [stream_exit_exn add_event].
      destruct (stream_exit_exn w3) as [e'|]; cbn.
      * destruct (is_BrokenPipeError e'); cbn; rewrite Hevs; eexists;
          (split; [rewrite <- !app_assoc; reflexivity|]);
          cbn; rewrite !stream_exits_app, (stream_exits_none Hnone); reflexivity.
      * destruct (is_BrokenPipeError e); cbn; rewrite Hevs; eexists;
          (split; [rewrite <- !app_assoc; reflexivity|]);
          cbn; rewrite !stream_exits_app, (stream_exits_none Hnone); reflexivity.
    + cbn. rewrite Hevs. eexists.
      split; [rewrite <- !app_assoc; reflexivity|].
      cbn. apply (stream_exits_none Hnone).
Qed.

(** X12: when [create_stream] raises [BrokenPipeError], [run] logs that Tor
    crashed and leaves through [SystemExit]; the client gets no reply and
    its socket is not closed. *)
Theorem broken_pipe_from_circuit (w w1 : world) (dest : pystr) (port : N) :
  client_sock w = Some CSock ->
  Socks5_handshake CSock w = (Val (Some (dest, port)), w1) ->
  create_stream_exn w1 dest port = Some BrokenPipeError ->
  fst (Socks5_run w) = Raise SystemExit /\
  client_sock (snd (Socks5_run w)) = client_sock w1 /\
  exists evs,
    trace (snd (Socks5_run w)) = trace w1 ++ evs /\
    evs = [EvLog Info (MsgConnecting dest port); EvCreateStream dest port;
           EvLog Error MsgTorCrashed] /\
    closes CSock evs = 0%nat /\ sent_bytes CSock evs = [].
Proof.
  intros Hcs Hhs Hstream.
  rewrite (Socks5_run_connects w Hcs Hhs).
  unfold run_connect, Socks5_create_socket, with_create_stream,
    circuit_create_stream, try_except, bind, L, E, emit, py_exit, raise.
  cbn [create_stream_exn add_event]. rewrite Hstream. cbn.
  repeat split. eexists. split; [|repeat split].
  now rewrite <- !app_assoc.
Qed.

Lemma broken_pipe_from_circuit_witness :
  fst (Socks5_run (failing_circuit_world (greeting_noauth ++ connect_localhost_80)
                     BrokenPipeError)) = Raise SystemExit /\
  client_sock (snd (Socks5_run (failing_circuit_world
                     (greeting_noauth ++ connect_localhost_80) BrokenPipeError)))
  = client_sock (snd (Socks5_handshake CSock (failing_circuit_world
                     (greeting_noauth ++ connect_localhost_80) BrokenPipeError))) /\
  exists evs,
    trace (snd (Socks5_run (failing_circuit_world
                     (greeting_noauth ++ connect_localhost_80) BrokenPipeError)))
    = trace (snd (Socks5_handshake CSock (failing_circuit_world
                     (greeting_noauth ++ connect_localhost_80) BrokenPipeError)))
      ++ evs /\
    evs = [EvLog Info (MsgConnecting (str_of_string "127.0.0.1") 80);
           EvCreateStream (str_of_string "127.0.0.1") 80;
           EvLog Error MsgTorCrashed] /\
    closes CSock evs = 0%nat /\ sent_bytes CSock evs = [].
Proof.
  apply (@broken_pipe_from_circuit
           (failing_circuit_world (greeting_noauth ++ connect_localhost_80)
              BrokenPipeError)
           (snd (Socks5_handshake CSock
                   (failing_circuit_world (greeting_noauth ++ connect_localhost_80)
                      BrokenPipeError)))
           (str_of_string "127.0.0.1") 80%N);
    reflexivity.
Defined.

(** X13: when sending the success reply raises, the relay and its cleanup
    do not run: the stream is left, neither socket is closed by
    [SocksProxy.run], and the exception reaches [Socks5.run].  There a
    [BrokenPipeError], which here means the client is gone, is reported as
    a crash of Tor and ends in [SystemExit] with the client socket open;
    any other [Exception] is logged and the client socket closed. *)
Theorem reply_failure_skips_relay (w w1 : world) (dest : pystr) (port : N)
    (e : exn) (fs : list (option exn)) :
  client_sock w = Some CSock ->
  Socks5_handshake CSock w = (Val (Some (dest, port)), w1) ->
  create_stream_exn w1 dest port = None ->
  create_socket_exn w1 = None ->
  stream_exit_exn w1 = None ->
  (sockname_port (csock w1) < 65536)%N ->
  tx_faults (csock w1) = Some e :: fs ->
  is_Exception e = true ->
  fst (Socks5_run w)
  = (if is_BrokenPipeError e then Raise SystemExit else Val tt) /\
  exists evs,
    trace (snd (Socks5_run w)) = trace w1 ++ evs /\
    evs = [EvLog Info (MsgConnecting dest port); EvCreateStream dest port;
           EvCreateSocket; EvStreamExit]
          ++ (if is_BrokenPipeError e
              then [EvLog Error MsgTorCrashed]
              else [EvLog Error MsgClosedByException; EvClose CSock]) /\
    closes SSock evs = 0%nat /\ sent_bytes CSock evs = [].
Proof.
  intros Hcs Hhs Hstream Hsock Hexit Hp Htx Hexc.
  rewrite (Socks5_run_connects w Hcs Hhs).
  unfold run_connect, Socks5_create_socket, with_create_stream,
    circuit_create_stream, tor_stream_create_socket, tor_stream_exit,
    SocksProxy_run, try_except, try_finally, getsockname, struct_pack_H,
    sendall, send, bind, L, E, emit, py_exit, raise, run_except, close,
    assign_client_sock, add_event, set_sock, set_tx_faults, set_client_sock,
    get_sock.
  apply N.ltb_lt in Hp.
  destruct w1 as [[cr ce cf cp] k cfld cs ck sx sc t].
  cbn in Hstream, Hsock, Hexit, Hp, Htx. subst cf ck sx.
  cbn -[N.ltb N.div N.modulo]. rewrite Hstream.
  cbn -[N.ltb N.div N.modulo]. rewrite Hp.
  cbn -[N.ltb N.div N.modulo].
  destruct e; try discriminate Hexc; cbn -[N.ltb N.div N.modulo];
    (split; [reflexivity|]);
    (eexists; split; [now rewrite <- !app_assoc | repeat split]).
Qed.

Lemma reply_failure_skips_relay_witness :
  fst (Socks5_run (connection_world (greeting_noauth ++ connect_localhost_80)
                     [None; Some BrokenPipeError] [] None None None []))
  = (if is_BrokenPipeError BrokenPipeError then Raise SystemExit else Val tt) /\
  exists evs,
    trace (snd (Socks5_run (connection_world
                     (greeting_noauth ++ connect_localhost_80)
                     [None; Some BrokenPipeError] [] None None None [])))
    = trace (snd (Socks5_handshake CSock (connection_world
                     (greeting_noauth ++ connect_localhost_80)
                     [None; Some BrokenPipeError] [] None None None []))) ++ evs /\
    evs = [EvLog Info (MsgConnecting (str_of_string "127.0.0.1") 80);
           EvCreateStream (str_of_string "127.0.0.1") 80;
           EvCreateSocket; EvStreamExit]
          ++ (if is_BrokenPipeError BrokenPipeError
              then [EvLog Error MsgTorCrashed]
              else [EvLog Error MsgClosedByException; EvClose CSock]) /\
    closes SSock evs = 0%nat /\ sent_bytes CSock evs = [].
Proof.
  apply (@reply_failure_skips_relay
           (connection_world (greeting_noauth ++ connect_localhost_80)
              [None; Some BrokenPipeError] [] None None None [])
           (snd (Socks5_handshake CSock
                   (connection_world (greeting_noauth ++ connect_localhost_80)
                      [None; Some BrokenPipeError] [] None None None [])))
           (str_of_string "127.0.0.1") 80%N BrokenPipeError []);
    reflexivity.
Defined.

(** ** The circuit is left alone *)

Lemma same_circuit_refl (w : world) : same_circuit w w.
Proof. repeat split. Qed.

Lemma same_circuit_trans (w1 w2 w3 : world) :
  same_circuit w1 w2 -> same_circuit w2 w3 -> same_circuit w1 w3.
Proof.
  intros (H1 & H2 & H3 & H4) (H1' & H2' & H3' & H4').
  repeat split; congruence.
Qed.

Lemma same_circuit_set_sock (s : sock_id) (k : sock) (w : world) :
  same_circuit w (set_sock s k w).
Proof. destruct s; repeat split. Qed.

Lemma keeps_ret {A} (a : A) : keeps_circuit (ret a).
Proof. intros w. apply same_circuit_refl. Qed.

Lemma keeps_bind {A B} (c : M A) (k : A -> M B) :
  keeps_circuit c -> (forall a, keeps_circuit (k a)) -> keeps_circuit (bind c k).
Proof.
  intros Hc Hk w. unfold bind. specialize (Hc w).
  destruct (c w) as [[a|e|] w1]; cbn in *; try assumption.
  eapply same_circuit_trans; [exact Hc | apply Hk].
Qed.

Lemma keeps_try_except {A} (c : M A) (h : exn -> option (M A)) :
  keeps_circuit c -> (forall e k, h e = Some k -> keeps_circuit k) ->
  keeps_circuit (try_except c h).
Proof.
  intros Hc Hh w. unfold try_except. specialize (Hc w).
  destruct (c w) as [[a|e|] w1]; cbn in *; try assumption.
  destruct (h e) as [k|] eqn:Hk; [|assumption].
  eapply same_circuit_trans; [exact Hc | eapply Hh; eassumption].
Qed.

Lemma keeps_try_finally {A} (c : M A) (f : M unit) :
  keeps_circuit c -> keeps_circuit f -> keeps_circuit (try_finally c f).
Proof.
  intros Hc Hf w. unfold try_finally. specialize (Hc w).
  destruct (c w) as [[a|e|] w1]; cbn in *; try assumption;
    specialize (Hf w1); destruct (f w1) as [[[]|e'|] w2]; cbn in *;
    eapply same_circuit_trans; eassumption.
Qed.

Lemma keeps_emit (e : event) : keeps_circuit (emit e).
Proof. intros w. repeat split. Qed.

Lemma keeps_recv (s : sock_id) (n a : nat) : keeps_circuit (recv s n a).
Proof.
  intros w. unfold recv.
  destruct (rx (get_sock s w)); [destruct (rx_end (get_sock s w))|]; cbn;
    first [apply same_circuit_refl | apply same_circuit_set_sock].
Qed.

Lemma keeps_send (s : sock_id) (data : list byte) : keeps_circuit (send s data).
Proof.
  intros w. unfold send.
  destruct (tx_faults (get_sock s w)) as [|[e|] fs]; cbn;
    destruct s; repeat split.
Qed.

Lemma keeps_relay_side (from to : sock_id) (r : list sock_id) (a : nat) :
  keeps_circuit (relay_side from to r a).
Proof.
  unfold relay_side. destruct (mem from r); [|apply keeps_ret].
  apply keeps_bind; [apply keeps_recv|]. intros buf.
  destruct (List.length buf =? 0)%nat; [apply keeps_ret|].
  apply keeps_bind; [apply keeps_send | intros; apply keeps_ret].
Qed.

Lemma keeps_relay_loop (ssock csock : sock_id) (script : list wake) :
  keeps_circuit (relay_loop ssock csock script).
Proof.
  induction script as [|k script IH]; cbn [relay_loop].
  - intros w. apply same_circuit_refl.
  - apply keeps_bind.
    { intros w. unfold select. destruct (w_select k); apply same_circuit_refl. }
    intros r. apply keeps_bind; [apply keeps_relay_side|].
    intros [|]; [apply keeps_ret|].
    apply keeps_bind; [apply keeps_relay_side|].
    intros [|]; [apply keeps_ret | exact IH].
Qed.

Lemma keeps_relay (ssock csock : sock_id) : keeps_circuit (relay ssock csock).
Proof.
  unfold relay, relay_cleanup.
  apply keeps_try_finally.
  - apply keeps_try_except.
    + intros w. apply keeps_relay_loop.
    + intros e k H. inversion H. apply keeps_emit.
  - repeat (apply keeps_bind; [apply keeps_emit | intros]). apply keeps_emit.
Qed.

Lemma keeps_SocksProxy_run (ssock csock : sock_id) :
  keeps_circuit (SocksProxy_run ssock csock).
Proof.
  unfold SocksProxy_run.
  apply keeps_bind; [intros w; apply same_circuit_refl|]. intros port.
  apply keeps_bind.
  { unfold struct_pack_H. destruct (port <? 65536)%N;
      intros w; apply same_circuit_refl. }
  intros packed. apply keeps_bind; [apply keeps_send|]. intros _.
  apply keeps_relay.
Qed.

(** X15: when the relay has run to its end and the [__exit__] of the
    stream then raises an [Exception], the handler of line 156 closes the
    client socket again: it is closed twice, the tunnel socket once. *)
Theorem stream_exit_failure_closes_twice (w w1 : world) (dest : pystr) (port : N)
    (e : exn) :
  client_sock w = Some CSock ->
  Socks5_handshake CSock w = (Val (Some (dest, port)), w1) ->
  create_stream_exn w1 dest port = None ->
  create_socket_exn w1 = None ->
  stream_exit_exn w1 = Some e ->
  is_Exception e = true ->
  is_BrokenPipeError e = false ->
  (sockname_port (csock w1) < 65536)%N ->
  sends_ok 1 (tx_faults (csock w1)) = true ->
  fst (Socks5_run w) <> Hang ->
  fst (Socks5_run w) = Val tt /\
  exists evs,
    trace (snd (Socks5_run w)) = trace w1 ++ evs /\
    closes CSock evs = 2%nat /\ closes SSock evs = 1%nat.
Proof.
  intros Hcs Hhs Hstream Hsock Hexit Hexc Hbp Hp Htx.
  rewrite (Socks5_run_connects w Hcs Hhs).
  set (w3 := add_event EvCreateSocket
               (add_event (EvCreateStream dest port)
                  (add_event (EvLog Info (MsgConnecting dest port)) w1))).
  assert (Hrun : try_except (run_connect CSock dest port) (run_except CSock) w1
                 = match SocksProxy_run SSock CSock w3 with
                   | (Val _, w4) =>
                       match stream_exit_exn w4 with
                       | Some e' =>
                           try_except
                             (try_except (raise e')
                                (fun x =>
                                   if is_BrokenPipeError x
                                   then Some (E MsgTorCrashed ;; py_exit)
                                   else None))
                             (run_except CSock)
                             (add_event EvStreamExit
                                (add_event (EvLog Info MsgSuspending) w4))
                       | None =>
                           (Val tt,
                            add_event EvStreamExit
                              (add_event (EvLog Info MsgSuspending) w4))
                       end
                   | (Raise x, w4) =>
                       try_except
                         (try_except
                            (raise (match stream_exit_exn w4 with
                                    | Some e' => e'
                                    | None => x
                                    end))
                            (fun x =>
                               if is_BrokenPipeError x
                               then Some (E MsgTorCrashed ;; py_exit)
                               else None))
                         (run_except CSock)
                         (add_event EvStreamExit w4)
                   | (Hang, w4) => (Hang, w4)
                   end).
  { unfold run_connect, Socks5_create_socket, with_create_stream,
      circuit_create_stream, tor_stream_create_socket, tor_stream_exit.
    unfold try_except at 1 2. unfold try_finally, bind, L, emit.
    cbn [create_stream_exn add_event]. rewrite Hstream.
    cbn [create_socket_exn add_event]. rewrite Hsock.
    fold w3.
    destruct (SocksProxy_run SSock CSock w3) as [[[]|x|] w4];
      cbn [stream_exit_exn add_event ret];
      try destruct (stream_exit_exn w4) as [e'|];
      unfold try_except, raise; cbn [stream_exit_exn add_event];
      try destruct (is_BrokenPipeError e');
      try destruct (is_BrokenPipeError x); reflexivity. }
  rewrite Hrun. clear Hrun. intros Hret.
  assert (Hp3 : (sockname_port (csock w3) < 65536)%N) by exact Hp.
  assert (Htx3 : sends_ok 1 (tx_faults (csock w3)) = true) by exact Htx.
  pose proof (SocksProxy_run_closes_each_once w3 Hp3 Htx3) as Hclose.
  pose proof (keeps_SocksProxy_run SSock CSock w3) as (_ & _ & Hframe & _).
  destruct (SocksProxy_run SSock CSock w3) as [[[]|x|] w4];
    cbn [fst snd] in *.
  - destruct Hclose as (_ & evs & Htr & HcS & HcC); [discriminate|].
    rewrite Hframe. change (stream_exit_exn w3) with (stream_exit_exn w1).
    rewrite Hexit. unfold try_except, raise, run_except.
    rewrite Hbp, Hexc. cbn.
    split; [reflexivity|].
    exists ([EvLog Info (MsgConnecting dest port); EvCreateStream dest port;
             EvCreateSocket] ++ evs
            ++ [EvLog Info MsgSuspending; EvStreamExit;
                EvLog Error MsgClosedByException; EvClose CSock]).
    split; [|split].
    + rewrite Htr. unfold w3. cbn. now rewrite <- !app_assoc.
    + rewrite !closes_app, HcC. reflexivity.
    + rewrite !closes_app, HcS. reflexivity.
  - destruct Hclose as (Hval & _); [discriminate|discriminate].
  - now elim Hret.
Qed.

Lemma stream_exit_failure_closes_twice_witness :
  fst (Socks5_run (connection_world (greeting_noauth ++ connect_localhost_80)
                     [] [] None None (Some TimeoutError) [client_readable]))
  = Val tt /\
  exists evs,
    trace (snd (Socks5_run (connection_world
                     (greeting_noauth ++ connect_localhost_80)
                     [] [] None None (Some TimeoutError) [client_readable])))
    = trace (snd (Socks5_handshake CSock (connection_world
                     (greeting_noauth ++ connect_localhost_80)
                     [] [] None None (Some TimeoutError) [client_readable])))
      ++ evs /\
    closes CSock evs = 2%nat /\ closes SSock evs = 1%nat.
Proof.
  apply (@stream_exit_failure_closes_twice
           (connection_world (greeting_noauth ++ connect_localhost_80)
              [] [] None None (Some TimeoutError) [client_readable])
           (snd (Socks5_handshake CSock
                   (connection_world (greeting_noauth ++ connect_localhost_80)
                      [] [] None None (Some TimeoutError) [client_readable])))
           (str_of_string "127.0.0.1") 80%N TimeoutError);
    try reflexivity.
  vm_compute. discriminate.
Defined.

(** * The host string of an IPv4 address *)

Lemma int10_decimal_of_byte (b : byte) : int10 (decimal_of_byte b) = Byte.to_N b.
Proof. destruct b; reflexivity. Qed.

Lemma decimal_of_byte_no_dot (b : byte) :
  Forall (fun c => c <> 46%N) (decimal_of_byte b).
Proof. destruct b; repeat constructor; discriminate. Qed.

Lemma decimal_of_byte_inj (a b : byte) :
  decimal_of_byte a = decimal_of_byte b -> a = b.
Proof.
  intros H. apply to_N_inj.
  now rewrite <- (int10_decimal_of_byte a), <- (int10_decimal_of_byte b), H.
Qed.

(** Two strings without a dot that are followed by a dot and agree with
    what follows are the same. *)
Lemma split_at_dot (x y r s : pystr) :
  Forall (fun c => c <> 46%N) x ->
  Forall (fun c => c <> 46%N) y ->
  x ++ 46%N :: r = y ++ 46%N :: s ->
  x = y /\ r = s.
Proof.
  intros Hx. revert y. induction Hx as [|c x Hc _ IH]; intros y Hy Heq.
  - destruct Hy as [|d y Hd _]; cbn in Heq.
    + inversion Heq. now split.
    + inversion Heq. congruence.
  - destruct Hy as [|d y Hd Hy]; cbn in Heq.
    + inversion Heq. congruence.
    + inversion Heq. subst d.
      destruct (IH y Hy H1) as [-> ->]. now split.
Qed.

(** Two IPv4 addresses with the same dotted-decimal rendering are the same
    four bytes. *)
Lemma dotted_decimal_inj (a b c d a' b' c' d' : byte) :
  dotted_decimal a b c d = dotted_decimal a' b' c' d' ->
  a = a' /\ b = b' /\ c = c' /\ d = d'.
Proof.
  unfold dotted_decimal. cbn [app]. intros H.
  apply split_at_dot in H; try apply decimal_of_byte_no_dot.
  destruct H as [Ha H]. apply decimal_of_byte_inj in Ha.
  apply split_at_dot in H; try apply decimal_of_byte_no_dot.
  destruct H as [Hb H]. apply decimal_of_byte_inj in Hb.
  apply split_at_dot in H; try apply decimal_of_byte_no_dot.
  destruct H as [Hc Hd].
  apply decimal_of_byte_inj in Hc. apply decimal_of_byte_inj in Hd.
  now repeat split.
Qed.

(** X18: the host string tells the address: two addresses of four bytes
    that line 139 turns into the same host are the same. *)
Theorem ipv4_host_determines_address (a b c d a' b' c' d' : byte) :
  ipv4_host [a; b; c; d] = ipv4_host [a'; b'; c'; d'] ->
  [a; b; c; d] = [a'; b'; c'; d'].
Proof.
  unfold ipv4_host. cbn [ints map join]. rewrite !py_str_byte. intros H.
  destruct (@dotted_decimal_inj a b c d a' b' c' d') as (-> & -> & -> & ->);
    [exact H | reflexivity].
Qed.

Lemma ipv4_host_determines_address_witness :
  [x7f; x00; x00; x01] = [x7f; x00; x00; x01].
Proof.
  apply (@ipv4_host_determines_address x7f x00 x00 x01 x7f x00 x00 x01).
  reflexivity.
Defined.

(** * The listener *)

Lemma sv_advance_advance (l : listener) (evs evs' : list sv_event) :
  sv_advance (sv_advance l evs) evs' = sv_advance l (evs ++ evs').
Proof. unfold sv_advance. cbn. now rewrite app_assoc. Qed.

Lemma sv_closes_app (l1 l2 : list sv_event) :
  sv_closes (l1 ++ l2) = (sv_closes l1 + sv_closes l2)%nat.
Proof.
  induction l1 as [|e l1 IH]; cbn; [reflexivity|].
  destruct e; cbn; now rewrite IH.
Qed.

Lemma sv_started_app (l1 l2 : list sv_event) :
  sv_started (l1 ++ l2) = sv_started l1 ++ sv_started l2.
Proof.
  induction l1 as [|e l1 IH]; cbn; [reflexivity|].
  destruct e; cbn; now rewrite IH.
Qed.

Lemma sv_started_served (conns : list address) :
  sv_started (flat_map served conns) = conns.
Proof. induction conns as [|c conns IH]; cbn; [reflexivity | now rewrite IH]. Qed.

Lemma sv_closes_served (conns : list address) :
  sv_closes (flat_map served conns) = 0%nat.
Proof. induction conns as [|c conns IH]; cbn; [reflexivity | exact IH]. Qed.

Lemma accept_loop_accepted (c : address) (script : list accept_result)
    (l : listener) :
  listen_socket l = true ->
  accept_loop (Accepted c None :: script) l
  = accept_loop script (sv_advance l (served c)).
Proof.
  intros Hls. cbn [accept_loop].
  destruct l as [ls se so be le ac fe tr]. cbn in Hls. subst ls.
  unfold sv_bind, sv_accept, self_listen_socket, sv_L, Socks5_start, sv_call,
    sv_emit, sv_ret.
  cbn. f_equal.
  unfold sv_advance, served. cbn. now rewrite <- app_assoc.
Qed.

Lemma accept_loop_serves (conns : list address) (e : exn)
    (rest : list accept_result) (l : listener) :
  listen_socket l = true ->
  accept_loop (map (fun c => Accepted c None) conns ++ AcceptRaises e :: rest) l
  = (Raise e,
     sv_advance l (flat_map served conns ++ [SvLog Info SvClosingByUser])).
Proof.
  revert l. induction conns as [|c conns IH]; intros l Hls.
  - cbn. unfold sv_bind, sv_accept, self_listen_socket, sv_bind. rewrite Hls.
    reflexivity.
  - cbn [map app flat_map].
    rewrite accept_loop_accepted by exact Hls.
    rewrite IH by exact Hls.
    now rewrite sv_advance_advance, <- app_assoc.
Qed.

Lemma accept_loop_never_returns (script : list accept_result) (l : listener)
    (u : unit) :
  fst (accept_loop script l) <> Val u.
Proof.
  revert l. induction script as [|a script IH]; intros l; [discriminate|].
  cbn [accept_loop]. unfold sv_bind at 1.
  destruct (sv_accept a l) as [[caddr|e|] l1]; cbn; try discriminate.
  unfold sv_bind. cbn.
  unfold Socks5_start, sv_call.
  destruct a as [c [x|]|x]; cbn; try discriminate; apply IH.
Qed.

(** What [start] does to the listener apart from its outcome: it appends
    events, none of them a close, and keeps the socket and the
    traceback. *)
Lemma accept_loop_frame (script : list accept_result) (l : listener) :
  exists evs,
    sv_trace (snd (accept_loop script l)) = sv_trace l ++ evs /\
    sv_closes evs = 0%nat /\
    listen_socket (snd (accept_loop script l)) = listen_socket l /\
    format_exception (snd (accept_loop script l)) = format_exception l.
Proof.
  revert l. induction script as [|a script IH]; intros l.
  { exists []. cbn. now rewrite app_nil_r. }
  cbn [accept_loop].
  unfold sv_bind, sv_accept, self_listen_socket, sv_L, Socks5_start, sv_call,
    sv_emit, sv_ret, sv_raise.
  destruct l as [[|] se so be le ac fe tr]; cbn.
  2:{ exists [SvLog Info SvClosingByUser]. repeat split. }
  destruct a as [c [x|]|x]; cbn.
  - exists [SvLog Info (SvConnected c)]. repeat split.
  - match goal with
    | |- context [accept_loop script ?l'] =>
        destruct (IH l') as (evs & Htr & Hcl & Hsock & Hfmt)
    end.
    cbn in Htr, Hsock, Hfmt.
    exists (served c ++ evs).
    rewrite Htr, Hsock, Hfmt, sv_closes_app, Hcl.
    rewrite <- !app_assoc. repeat split; auto.
  - exists [SvLog Info SvClosingByUser]. repeat split.
Qed.

(** X19: [start] never returns.  With the listening socket in place, it
    starts one thread for every connection it accepts, in the order of
    their arrival, and when [accept] raises it logs the line of line 93 and
    raises the same exception, without closing the listening socket. *)
Theorem start_serves_until_accept_raises :
  (forall l u, fst (SocksServer_start l) <> Val u) /\
  (forall l conns e rest,
      listen_socket l = true ->
      accepts l = map (fun c => Accepted c None) conns ++ AcceptRaises e :: rest ->
      fst (SocksServer_start l) = Raise e /\
      exists evs,
        sv_trace (snd (SocksServer_start l)) = sv_trace l ++ evs /\
        evs = flat_map served conns ++ [SvLog Info SvClosingByUser] /\
        sv_started evs = conns /\
        sv_closes evs = 0%nat).
Proof.
  split.
  - intros l u. apply accept_loop_never_returns.
  - intros l conns e rest Hls Hacc. unfold SocksServer_start.
    rewrite Hacc, accept_loop_serves by exact Hls.
    split; [reflexivity|]. eexists. split; [reflexivity|].
    split; [reflexivity|]. split.
    + now rewrite sv_started_app, sv_started_served, app_nil_r.
    + now rewrite sv_closes_app, sv_closes_served.
Qed.

Lemma start_serves_until_accept_raises_witness :
  fst (SocksServer_start
         (mkListener true None None None None
            [Accepted (str_of_string "127.0.0.1", 40000%N) None;
             Accepted (str_of_string "127.0.0.1", 40001%N) None;
             AcceptRaises KeyboardInterrupt]
            (fun _ => []) []))
  = Raise KeyboardInterrupt /\
  exists evs,
    sv_trace (snd (SocksServer_start
         (mkListener true None None None None
            [Accepted (str_of_string "127.0.0.1", 40000%N) None;
             Accepted (str_of_string "127.0.0.1", 40001%N) None;
             AcceptRaises KeyboardInterrupt]
            (fun _ => []) [])))
    = [] ++ evs /\
    evs = flat_map served [(str_of_string "127.0.0.1", 40000%N);
                           (str_of_string "127.0.0.1", 40001%N)]
          ++ [SvLog Info SvClosingByUser] /\
    sv_started evs = [(str_of_string "127.0.0.1", 40000%N);
                      (str_of_string "127.0.0.1", 40001%N)] /\
    sv_closes evs = 0%nat.
Proof.
  apply (proj2 start_serves_until_accept_raises
           (mkListener true None None None None
              [Accepted (str_of_string "127.0.0.1", 40000%N) None;
               Accepted (str_of_string "127.0.0.1", 40001%N) None;
               AcceptRaises KeyboardInterrupt]
              (fun _ => []) [])
           [(str_of_string "127.0.0.1", 40000%N);
            (str_of_string "127.0.0.1", 40001%N)]
           KeyboardInterrupt []);
    reflexivity.
Defined.

Lemma sv_for_each_log (f : pystr -> sv_message) (lines : list pystr)
    (l : listener) :
  sv_for_each lines (fun line => sv_E (f line)) l
  = (Val tt, sv_advance l (map (fun line => SvLog Error (f line)) lines)).
Proof.
  revert l. induction lines as [|line lines IH]; intros l.
  - cbn. unfold sv_ret, sv_advance. rewrite app_nil_r. now destruct l.
  - cbn [sv_for_each map]. unfold sv_bind, sv_E at 1, sv_emit.
    rewrite IH. unfold sv_advance. cbn. now rewrite <- app_assoc.
Qed.

Lemma SocksServer_exit_logs (l : listener) (e : exn) :
  listen_socket l = true ->
  SocksServer_exit (Some e) l
  = (Val tt, sv_advance l (SvClose :: logged_exception l e)).
Proof.
  intros Hls. unfold SocksServer_exit, sv_bind, self_listen_socket.
  rewrite Hls. unfold sv_emit at 1, sv_E at 1, sv_emit at 1.
  cbv beta iota. cbn [format_exception].
  rewrite sv_for_each_log. unfold sv_advance, logged_exception. cbn.
  now rewrite <- !app_assoc.
Qed.

Lemma sv_closes_logged_exception (l : listener) (e : exn) :
  sv_closes (logged_exception l e) = 0%nat.
Proof.
  unfold logged_exception. cbn.
  induction (format_exception l e) as [|line lines IH]; [reflexivity | exact IH].
Qed.

Lemma SocksServer_enter_ok (l : listener) :
  socket_exn l = None -> setsockopt_exn l = None ->
  bind_exn l = None -> listen_exn l = None ->
  sv_bind SocksServer_init (fun _ => SocksServer_enter) l
  = (Val tt,
     mkListener true None None None None (accepts l) (format_exception l)
       (sv_trace l ++ entered)).
Proof.
  intros H1 H2 H3 H4. destruct l as [ls se so be le ac fe tr].
  cbn in H1, H2, H3, H4. subst.
  unfold SocksServer_init, SocksServer_enter, sv_bind, sv_call, sv_L, sv_emit,
    set_listen_socket, entered.
  cbn. now rewrite <- !app_assoc.
Qed.

(** X20: once [__enter__] has succeeded, the [with] block of lines 164-165
    ends only by an exception; the listening socket is then closed exactly
    once, after the threads were started and before the exception is
    logged line by line, and the same exception goes on. *)
Theorem serve_closes_listener_once (l : listener) :
  socket_exn l = None -> setsockopt_exn l = None ->
  bind_exn l = None -> listen_exn l = None ->
  fst (serve l) <> Hang ->
  exists e evs,
    fst (serve l) = Raise e /\
    sv_trace (snd (serve l))
    = sv_trace l ++ entered ++ evs ++ SvClose :: logged_exception l e /\
    sv_closes evs = 0%nat /\
    sv_closes (entered ++ evs ++ SvClose :: logged_exception l e) = 1%nat.
Proof.
  intros H1 H2 H3 H4.
  set (l2 := mkListener true None None None None (accepts l) (format_exception l)
               (sv_trace l ++ entered)).
  assert (Hserve :
            serve l
            = match accept_loop (accepts l) l2 with
              | (Val a, l') => (SocksServer_exit None ;; sv_ret a)%sv l'
              | (Raise e, l') => (SocksServer_exit (Some e) ;; sv_raise e)%sv l'
              | (Hang, l') => (Hang, l')
              end).
  { unfold serve, with_SocksServer.
    change (sv_bind SocksServer_init
              (fun _ => sv_bind SocksServer_enter ?k))
      with (sv_bind (sv_bind SocksServer_init (fun _ => SocksServer_enter)) k).
    unfold sv_bind at 1. rewrite SocksServer_enter_ok by assumption.
    reflexivity. }
  rewrite Hserve. clear Hserve.
  pose proof (accept_loop_never_returns (accepts l) l2) as Hnever.
  destruct (accept_loop_frame (accepts l) l2) as (evs & Htr & Hcl & Hsock & Hfmt).
  destruct (accept_loop (accepts l) l2) as [[u|e|] l3]; cbn [fst snd] in *.
  - now elim (Hnever u).
  - intros _. unfold sv_bind at 1 2.
    rewrite SocksServer_exit_logs by (rewrite Hsock; reflexivity).
    exists e, evs. cbn [fst snd]. split; [reflexivity|].
    split; [|split; [exact Hcl|]].
    + unfold sv_advance, logged_exception. cbn [sv_trace sv_raise snd].
      rewrite Htr, Hfmt. cbn. now rewrite <- !app_assoc.
    + rewrite !sv_closes_app, Hcl.
      change (sv_closes (SvClose :: logged_exception l e))
        with (S (sv_closes (logged_exception l e))).
      rewrite sv_closes_logged_exception. reflexivity.
  - intros H. now elim H.
Qed.

Lemma serve_closes_listener_once_witness :
  exists e evs,
    fst (serve (sound_listener [Accepted (str_of_string "127.0.0.1", 40000%N) None;
                                AcceptRaises KeyboardInterrupt]))
    = Raise e /\
    sv_trace (snd (serve (sound_listener
                            [Accepted (str_of_string "127.0.0.1", 40000%N) None;
                             AcceptRaises KeyboardInterrupt])))
    = sv_trace (sound_listener
                  [Accepted (str_of_string "127.0.0.1", 40000%N) None;
                   AcceptRaises KeyboardInterrupt])
      ++ entered ++ evs
      ++ SvClose
         :: logged_exception
              (sound_listener [Accepted (str_of_string "127.0.0.1", 40000%N) None;
                               AcceptRaises KeyboardInterrupt]) e /\
    sv_closes evs = 0%nat /\
    sv_closes
      (entered ++ evs
       ++ SvClose
          :: logged_exception
               (sound_listener [Accepted (str_of_string "127.0.0.1", 40000%N) None;
                                AcceptRaises KeyboardInterrupt]) e)
    = 1%nat.
Proof.
  apply (@serve_closes_listener_once
           (sound_listener [Accepted (str_of_string "127.0.0.1", 40000%N) None;
                            AcceptRaises KeyboardInterrupt]));
    try reflexivity.
  vm_compute. discriminate.
Defined.

(** X21: when [bind] raises, as it does while the port is taken,
    [__enter__] raises before the body of the [with] is entered, so that
    [__exit__] is not run: the socket has been created and is not
    closed. *)
Theorem bind_failure_leaves_socket_open {A} (body : SM A) (l : listener) (e : exn) :
  socket_exn l = None -> setsockopt_exn l = None -> bind_exn l = Some e ->
  fst (with_SocksServer body l) = Raise e /\
  listen_socket (snd (with_SocksServer body l)) = true /\
  exists evs,
    sv_trace (snd (with_SocksServer body l)) = sv_trace l ++ evs /\
    evs = [SvSocket 2 1 6; SvReuseAddr] /\
    sv_closes evs = 0%nat.
Proof.
  intros H1 H2 H3. destruct l as [ls se so be le ac fe tr].
  cbn in H1, H2, H3. subst.
  unfold with_SocksServer, SocksServer_init, SocksServer_enter, sv_bind,
    sv_call, sv_L, sv_emit, set_listen_socket.
  cbn. split; [reflexivity|]. split; [reflexivity|].
  eexists. split; [|split; reflexivity]. now rewrite <- !app_assoc.
Qed.

Lemma bind_failure_leaves_socket_open_witness :
  fst (with_SocksServer SocksServer_start
         (mkListener false None None (Some OSError) None [] (fun _ => []) []))
  = Raise OSError /\
  listen_socket (snd (with_SocksServer SocksServer_start
         (mkListener false None None (Some OSError) None [] (fun _ => []) [])))
  = true /\
  exists evs,
    sv_trace (snd (with_SocksServer SocksServer_start
         (mkListener false None None (Some OSError) None [] (fun _ => []) [])))
    = [] ++ evs /\
    evs = [SvSocket 2 1 6; SvReuseAddr] /\
    sv_closes evs = 0%nat.
Proof.
  apply (@bind_failure_leaves_socket_open unit SocksServer_start
           (mkListener false None None (Some OSError) None [] (fun _ => []) [])
           OSError);
    reflexivity.
Defined.

